(** * Streaming z-score anomaly detection: a shallow embedding

    This development embeds the two leaf components of the repository,

    - [anomaly_detector.py]  (class [AnomalyDetector]), and
    - [data_stream_simulator.py]  (class [DataStreamSimulator]),

    and settles the properties the specification states about them.

    Modelling conventions.

    - Numbers are as the code has them: a Python [float] and a NumPy
      [float64] are IEEE 754 binary64 values, the kernel's primitive type
      [float], with its correctly rounded operations; a Python [int] is an
      unbounded integer ([Z]).  Samples are floats (the integers of the
      unit tests are converted by NumPy to the floats of the same value).
    - A method is a function on the object's attributes that returns either
      a result and the new attributes or the exception raised.
    - What the code takes from libraries is modelled after the libraries:
      [collections.deque] with [maxlen], [np.mean] and [np.std] with
      NumPy's pairwise summation.  The sine of the C library is a
      parameter, and the values drawn from the global random generator are
      explicit inputs of [get_next_value].

    Every definition is executable. *)

From Stdlib Require Import ZArith List Bool Lia.
From Stdlib Require Import Floats.
Import ListNotations.

Set Implicit Arguments.

(* ================================================================== *)
(** * Python level: exceptions and fallible results                   *)
(* ================================================================== *)

(** The exceptions that the modelled code paths can raise. *)
Inductive exn : Type :=
| ValueError
| OverflowError
| ZeroDivisionError
| AttributeError.

Inductive result (A : Type) : Type :=
| Ok (a : A)
| Raise (e : exn).

Arguments Ok {A} a.
Arguments Raise {A} e.

(** [float(n)] for a Python [int]: the correctly rounded (nearest, ties to
    even) binary64 value, or [OverflowError] when [n] is too large. *)
Definition py_float_of_int (n : Z) : result float :=
  let f := SF2Prim (binary_normalize prec emax n 0 false) in
  if is_finite f then Ok f else Raise OverflowError.

(* ================================================================== *)
(** * collections.deque with a maximum length                         *)
(* ================================================================== *)

Module Deque.

Record deque : Type := mk {
  maxlen : Z;
  items : list float     (* oldest first *)
}.

(** Smallest and largest value of a C [Py_ssize_t]. *)
Definition ssize_min : Z := - 2 ^ 63.
Definition ssize_max : Z := 2 ^ 63 - 1.

(** [deque(maxlen=n)]: [maxlen] is first converted to a [Py_ssize_t], which
    raises [OverflowError] when it does not fit, on either side; a negative
    [maxlen] that fits is a [ValueError]. *)
Definition new (n : Z) : result deque :=
  if ((n <? ssize_min) || (ssize_max <? n))%Z then Raise OverflowError
  else if (n <? 0)%Z then Raise ValueError
  else Ok {| maxlen := n; items := [] |}.

Definition len (q : deque) : Z := Z.of_nat (length (items q)).

(** [q.append(v)]: the item is added on the right; when the deque then
    exceeds [maxlen], one item is removed on the left. *)
Definition append (q : deque) (v : float) : deque :=
  let l := items q ++ [v] in
  {| maxlen := maxlen q;
     items := if (maxlen q <? Z.of_nat (length l))%Z then tl l else l |}.

End Deque.

(* ================================================================== *)
(** * NumPy: sum, mean and standard deviation of a float64 array      *)
(* ================================================================== *)

Module Numpy.

Local Open Scope float_scope.

(** [np.pi] *)
Definition pi : float := 0x1.921fb54442d18p+1.

(** Sequential accumulation [res += a[i]]. *)
Definition accumulate (res : float) (a : list float) : float :=
  fold_left add a res.

(** The eight partial sums of the unrolled summation loop. *)
Record acc8 : Type := Acc8 {
  r0 : float; r1 : float; r2 : float; r3 : float;
  r4 : float; r5 : float; r6 : float; r7 : float
}.

(** [r[k] += a[i + k]] for as long as eight more items are left; returns
    the accumulators and the items that remain (fewer than eight). *)
Fixpoint unrolled (r : acc8) (a : list float) : acc8 * list float :=
  match a with
  | a0 :: a1 :: a2 :: a3 :: a4 :: a5 :: a6 :: a7 :: rest =>
      unrolled (Acc8 (r0 r + a0) (r1 r + a1) (r2 r + a2) (r3 r + a3)
                     (r4 r + a4) (r5 r + a5) (r6 r + a6) (r7 r + a7)) rest
  | _ => (r, a)
  end.

(** Summation of a block of 8 to 128 items: eight accumulators, combined
    pairwise, then the remaining items one by one. *)
Definition block_sum (a : list float) : float :=
  match a with
  | a0 :: a1 :: a2 :: a3 :: a4 :: a5 :: a6 :: a7 :: rest =>
      let (r, tail) := unrolled (Acc8 a0 a1 a2 a3 a4 a5 a6 a7) rest in
      accumulate (((r0 r + r1 r) + (r2 r + r3 r)) +
                  ((r4 r + r5 r) + (r6 r + r7 r))) tail
  | _ => accumulate neg_zero a
  end.

(** NumPy's pairwise summation of [n] doubles: fewer than 8 items are added
    one by one, up to 128 items go through [block_sum], a longer array is
    split in two (the left part a multiple of 8) and the halves are added.
    The recursion is on a fuel; [pairwise_sum] gives it the length of the
    array, which is never used up ([pairwise_sum_fuel_stable]). *)
Fixpoint pairwise_sum_fuel (fuel : nat) (a : list float) : float :=
  let n := length a in
  if (n <? 8)%nat then accumulate neg_zero a
  else if (n <=? 128)%nat then block_sum a
  else
    match fuel with
    | O => block_sum a
    | S fuel' =>
        let n2 := (n / 2)%nat in
        let n2 := (n2 - n2 mod 8)%nat in
        pairwise_sum_fuel fuel' (firstn n2 a) +
        pairwise_sum_fuel fuel' (skipn n2 a)
    end.

Definition pairwise_sum (a : list float) : float :=
  pairwise_sum_fuel (length a) a.

(** [np.add.reduce] over a one-dimensional float64 array: the result starts
    as the identity [0.0], to which the pairwise sum of the items is added;
    the sum of no item is [0.0], and so is the sum of items that are all
    [-0.0]. *)
Definition np_sum (a : list float) : float :=
  match a with
  | [] => 0
  | _ => 0 + pairwise_sum a
  end.

(** The item count as the divisor of [true_divide]. *)
Definition count (a : list float) : float :=
  of_uint63 (Uint63.of_Z (Z.of_nat (length a))).

(** [np.mean(a)]: the sum divided by the number of items. *)
Definition np_mean (a : list float) : float :=
  np_sum a / count a.

(** [np.std(a)] (with [ddof = 0]): the square root of the mean of the
    squared deviations from the mean. *)
Definition np_std (a : list float) : float :=
  let arrmean := np_sum a / count a in
  let x := map (fun v => v - arrmean) a in
  let x := map (fun d => d * d) x in
  sqrt (np_sum x / count a).

End Numpy.

(* ================================================================== *)
(** * anomaly_detector.py                                              *)
(* ================================================================== *)

Module Detector.

Import Deque Numpy.
Local Open Scope float_scope.

(** The attributes of an [AnomalyDetector] object.  [mean] and [std] do
    not exist until [update_statistics] has run once: [None] stands for an
    attribute that is not set. *)
Record AnomalyDetector : Type := mkDetector {
  window_size : Z;
  threshold : float;
  values : deque;
  is_initialized : bool;
  mean : option float;
  std : option float
}.

(** ** A state, error and log monad for the methods

    A method runs on the object, may raise, and reports the windows on
    which the statistics were computed: the log is a ghost observation of
    the calls to [update_statistics], not part of the object. *)
Definition M (A : Type) : Type :=
  AnomalyDetector -> result (A * AnomalyDetector * list (list float)).

Definition ret {A : Type} (a : A) : M A :=
  fun d => Ok (a, d, []).

Definition bind {A B : Type} (m : M A) (f : A -> M B) : M B :=
  fun d =>
    match m d with
    | Raise e => Raise e
    | Ok (a, d1, l1) =>
        match f a d1 with
        | Raise e => Raise e
        | Ok (b, d2, l2) => Ok (b, d2, l1 ++ l2)
        end
    end.

Definition get : M AnomalyDetector := fun d => Ok (d, d, []).
Definition put (d : AnomalyDetector) : M unit := fun _ => Ok (tt, d, []).
Definition raise {A : Type} (e : exn) : M A := fun _ => Raise e.
Definition tell (w : list float) : M unit := fun d => Ok (tt, d, [w]).

Declare Scope detector_scope.
Delimit Scope detector_scope with det.
Notation "x <- m ;; k" := (bind m (fun x => k))
  (at level 61, m at next level, right associativity) : detector_scope.
Notation "m ;; k" := (bind m (fun _ => k))
  (at level 61, right associativity) : detector_scope.
Local Open Scope detector_scope.

(** Reading an attribute that may not be set yet. *)
Definition attr (o : option float) : M float :=
  match o with
  | Some x => ret x
  | None => raise AttributeError
  end.

(** ** The methods *)

(** [AnomalyDetector.__init__(window_size, threshold)] *)
Definition init (window_size : Z) (threshold : float)
  : result AnomalyDetector :=
  match Deque.new window_size with
  | Raise e => Raise e
  | Ok q =>
      Ok {| window_size := window_size;
            threshold := threshold;
            values := q;
            is_initialized := false;
            mean := None;
            std := None |}
  end.

(** [update_statistics()] *)
Definition update_statistics : M unit :=
  d <- get ;;
  tell (items (values d)) ;;
  put {| window_size := window_size d;
         threshold := threshold d;
         values := values d;
         is_initialized := is_initialized d;
         mean := Some (np_mean (items (values d)));
         std := Some (np_std (items (values d))) |}.

(** [self.values.append(value)] *)
Definition values_append (value : float) : M unit :=
  d <- get ;;
  put {| window_size := window_size d;
         threshold := threshold d;
         values := Deque.append (values d) value;
         is_initialized := is_initialized d;
         mean := mean d;
         std := std d |}.

(** [self.is_initialized = b] *)
Definition set_is_initialized (b : bool) : M unit :=
  d <- get ;;
  put {| window_size := window_size d;
         threshold := threshold d;
         values := values d;
         is_initialized := b;
         mean := mean d;
         std := std d |}.

(** The epsilon of the z-score, the literal [1e-10]. *)
Definition epsilon : float := 0x1.b7cdfd9d7bdbbp-34.

(** The z-score formula of [is_anomaly]. *)
Definition z_score (value mean std : float) : float :=
  (value - mean) / (std + epsilon).

(** [is_anomaly(value)] *)
Definition is_anomaly (value : float) : M bool :=
  d <- get ;;
  if (Deque.len (values d) <? window_size d / 2)%Z then
    values_append value ;;
    ret false
  else
    (if negb (is_initialized d) then
       update_statistics ;;
       set_is_initialized true
     else ret tt) ;;
    d <- get ;;
    m <- attr (mean d) ;;
    s <- attr (std d) ;;
    let z := z_score value m s in
    values_append value ;;
    update_statistics ;;
    d <- get ;;
    ret (threshold d <? abs z).

(** ** Driving a detector with a sequence of samples *)

(** [[self.is_anomaly(x) for x in xs]] *)
Fixpoint feed (xs : list float) : M (list bool) :=
  match xs with
  | [] => ret []
  | x :: xs' =>
      b <- is_anomaly x ;;
      bs <- feed xs' ;;
      ret (b :: bs)
  end.

(** A fresh detector fed with [xs]: the answers, the final object and the
    windows on which statistics were computed. *)
Definition run (window_size : Z) (threshold : float) (xs : list float)
  : result (list bool * AnomalyDetector * list (list float)) :=
  match init window_size threshold with
  | Raise e => Raise e
  | Ok d => feed xs d
  end.

(** The answers alone. *)
Definition answers (window_size : Z) (threshold : float) (xs : list float)
  : result (list bool) :=
  match run window_size threshold xs with
  | Raise e => Raise e
  | Ok (bs, _, _) => Ok bs
  end.

(** The window of a detector, oldest sample first. *)
Definition window (d : AnomalyDetector) : list float := items (values d).

End Detector.

(* ================================================================== *)
(** * data_stream_simulator.py                                         *)
(* ================================================================== *)

Module Simulator.

Import Numpy.
Local Open Scope float_scope.

(** The attributes of a [DataStreamSimulator] object. *)
Record DataStreamSimulator : Type := mkSimulator {
  seasonal_period : Z;
  trend_factor : float;
  noise_level : float;
  counter : Z
}.

(** What the global random generator hands out during one call of
    [get_next_value], in the order of the calls:
    - [gauss]: the standard normal deviate behind [np.random.normal];
    - [coin]: the result of [np.random.random()], in [0, 1);
    - [pick]: the index chosen by [np.random.choice([-1, 1])];
    - [spread]: the deviate in [0, 1) behind [np.random.uniform].
    The last two are only consumed when an anomaly is injected. *)
Record draws : Type := mkDraws {
  gauss : float;
  coin : float;
  pick : bool;
  spread : float
}.

(** [np.random.normal(loc, scale)]: a scale whose sign bit is set (and
    that is not a NaN) is a [ValueError]; otherwise [loc + scale * g] for
    a standard normal deviate [g]. *)
Definition np_random_normal (loc scale g : float) : result float :=
  if get_sign scale then Raise ValueError
  else Ok (loc + scale * g).

(** [np.random.uniform(low, high)]: [low + (high - low) * u] for a uniform
    deviate [u] of [0, 1). *)
Definition np_random_uniform (low high u : float) : float :=
  low + (high - low) * u.

(** [np.random.choice([-1, 1])]: the item at the index drawn. *)
Definition np_random_choice (second : bool) : Z :=
  if second then 1%Z else (-1)%Z.

(** A NumPy [int64] promoted to [float64] (always in range). *)
Definition np_float_of_int64 (n : Z) : float :=
  SF2Prim (binary_normalize prec emax n 0 false).

(** [DataStreamSimulator.__init__(seasonal_period, trend_factor,
    noise_level)]: four assignments, nothing that can raise. *)
Definition init (seasonal_period : Z) (trend_factor noise_level : float)
  : result DataStreamSimulator :=
  Ok {| seasonal_period := seasonal_period;
        trend_factor := trend_factor;
        noise_level := noise_level;
        counter := 0 |}.

(** The anomaly term of [get_next_value]. *)
Definition anomaly_term (r : draws) : float :=
  if coin r <? 0x1.47ae147ae147bp-7 (* 0.01 *) then
    let direction := np_random_choice (pick r) in
    let magnitude := np_random_uniform 5 10 (spread r) in
    let magnitude :=
      if (direction =? -1)%Z then magnitude * 1.5 else magnitude in
    np_float_of_int64 direction * magnitude
  else 0.

Section Libm.

(** The sine of the C library, which [np.sin] calls on a double. *)
Variable np_sin : float -> float.

(** [get_next_value()], given the draws of the random generator.
    [self.counter] and [self.seasonal_period] are Python integers:
    each is converted to a float where it meets one, and dividing a
    float by the integer zero raises [ZeroDivisionError]. *)
Definition get_next_value (g : DataStreamSimulator) (r : draws)
  : result (float * DataStreamSimulator) :=
  match py_float_of_int (counter g) with
  | Raise e => Raise e
  | Ok c =>
    match py_float_of_int (seasonal_period g) with
    | Raise e => Raise e
    | Ok p =>
      if (seasonal_period g =? 0)%Z then Raise ZeroDivisionError
      else
        let seasonal := np_sin (2 * pi * c / p) in
        let trend := trend_factor g * c in
        match np_random_normal 0 (noise_level g) (gauss r) with
        | Raise e => Raise e
        | Ok noise =>
            let anomaly := anomaly_term r in
            Ok (seasonal + trend + noise + anomaly,
                {| seasonal_period := seasonal_period g;
                   trend_factor := trend_factor g;
                   noise_level := noise_level g;
                   counter := counter g + 1 |})
        end
    end
  end.

(** [[g.get_next_value() for _ in rs]], one record of draws per call. *)
Fixpoint generate (g : DataStreamSimulator) (rs : list draws)
  : result (list float * DataStreamSimulator) :=
  match rs with
  | [] => Ok ([], g)
  | r :: rs' =>
      match get_next_value g r with
      | Raise e => Raise e
      | Ok (v, g1) =>
          match generate g1 rs' with
          | Raise e => Raise e
          | Ok (vs, g2) => Ok (v :: vs, g2)
          end
      end
  end.

End Libm.

End Simulator.

(* ================================================================== *)
(** * real_time_visualizer.py                                          *)
(* ================================================================== *)

Module Collections.

(** [collections.deque] with [maxlen], for items of any type. *)
Record deque (A : Type) : Type := mkDeque {
  maxlen : Z;
  items : list A      (* oldest first *)
}.

Definition new (A : Type) (n : Z) : result (deque A) :=
  if ((n <? Deque.ssize_min) || (Deque.ssize_max <? n))%Z
  then Raise OverflowError
  else if (n <? 0)%Z then Raise ValueError
  else Ok {| maxlen := n; items := [] |}.

Definition len {A : Type} (q : deque A) : Z := Z.of_nat (length (items q)).

Definition append {A : Type} (q : deque A) (v : A) : deque A :=
  let l := items q ++ [v] in
  {| maxlen := maxlen q;
     items := if (maxlen q <? Z.of_nat (length l))%Z then tl l else l |}.

End Collections.

Module Visualizer.

Import Collections.
Local Open Scope float_scope.

(** The data attributes of a [RealTimeVisualizer] object.  The figure, the
    axes, the line and the scatter belong to the plotting library; the
    calls made on them are recorded, see [call]. *)
Record RealTimeVisualizer : Type := mkVisualizer {
  max_points : Z;
  timestamps : deque Z;
  values : deque float;
  anomalies_x : deque Z;
  anomalies_y : deque float
}.

(** [MIN_Y_RANGE] *)
Definition MIN_Y_RANGE : float := 1.

(** The calls [update] makes on the plotting library, with their
    arguments. *)
Inductive call : Type :=
| line_set_data (xs : list Z) (ys : list float)
| scatter_set_offsets (rows : list (float * float))
| ax_set_ylim (lo hi : float)
| ax_set_xlim (lo hi : Z)
| canvas_draw
| canvas_flush_events.

(** The plotting library as [update] meets it: each call returns, or
    raises an exception. *)
Definition backend : Type := call -> option exn.

(** ** A monad for code that calls the plotting library: the calls made
    are logged, the first exception ends the computation. *)
Definition P (A : Type) : Type := backend -> result A * list call.

Definition ret {A : Type} (a : A) : P A := fun _ => (Ok a, []).

Definition bind {A B : Type} (m : P A) (f : A -> P B) : P B :=
  fun bk =>
    match m bk with
    | (Raise e, l) => (Raise e, l)
    | (Ok a, l) => let (r, l') := f a bk in (r, l ++ l')
    end.

Definition invoke (c : call) : P unit :=
  fun bk =>
    match bk c with
    | Some e => (Raise e, [c])
    | None => (Ok tt, [c])
    end.

Definition lift {A : Type} (r : result A) : P A := fun _ => (r, []).

(** [try: m; except Exception: return False; return True] *)
Definition try_except (m : P unit) : P bool :=
  fun bk =>
    match m bk with
    | (Ok _, l) => (Ok true, l)
    | (Raise _, l) => (Ok false, l)
    end.

Declare Scope plot_scope.
Delimit Scope plot_scope with plot.
Notation "x <- m ;; k" := (bind m (fun x => k))
  (at level 61, m at next level, right associativity) : plot_scope.
Notation "m ;; k" := (bind m (fun _ => k))
  (at level 61, right associativity) : plot_scope.
Local Open Scope plot_scope.

(** ** What [update] takes from Python and NumPy *)

(** [min(xs)] of the built-ins: the first item, replaced by each later one
    that compares less; a [ValueError] on no item. *)
Definition py_min (xs : list float) : result float :=
  match xs with
  | [] => Raise ValueError
  | x :: rest =>
      Ok (fold_left (fun best y => if y <? best then y else best) rest x)
  end.

(** [max(xs)]: likewise with "greater". *)
Definition py_max (xs : list float) : result float :=
  match xs with
  | [] => Raise ValueError
  | x :: rest =>
      Ok (fold_left (fun best y => if best <? y then y else best) rest x)
  end.

(** [np.c_[xs, ys]]: the two lists as the columns of a float64 array, one
    row per item; lists of different lengths are a [ValueError]. *)
Definition np_c_ (xs : list Z) (ys : list float)
  : result (list (float * float)) :=
  if (length xs =? length ys)%nat then
    Ok (combine (map Simulator.np_float_of_int64 xs) ys)
  else Raise ValueError.

(** ** The methods *)

(** The data part of [__init__(max_points)]: the four deques. *)
Definition init (max_points : Z) : result RealTimeVisualizer :=
  match new Z max_points, new float max_points with
  | Ok qz, Ok qf =>
      Ok {| max_points := max_points;
            timestamps := qz; values := qf;
            anomalies_x := qz; anomalies_y := qf |}
  | Raise e, _ => Raise e
  | _, Raise e => Raise e
  end.

(** [_calculate_y_limits(y_min, y_max)] *)
Definition _calculate_y_limits (y_min y_max : float) : float * float :=
  let y_range := y_max - y_min in
  if y_range <? MIN_Y_RANGE then
    let center := (y_max + y_min) / 2 in
    let y_min := center - MIN_Y_RANGE / 2 in
    let y_max := center + MIN_Y_RANGE / 2 in
    let y_range := MIN_Y_RANGE in
    let padding := 0x1.999999999999ap-4 (* 0.1 *) * y_range in
    (y_min - padding, y_max + padding)
  else
    let padding := 0x1.999999999999ap-4 (* 0.1 *) * y_range in
    (y_min - padding, y_max + padding).

(** The first part of [update]: the sample is stored, and stored again
    with the anomalies when it is one. *)
Definition store (v : RealTimeVisualizer) (timestamp : Z) (value : float)
    (is_anomaly : bool) : RealTimeVisualizer :=
  {| max_points := max_points v;
     timestamps := append (timestamps v) timestamp;
     values := append (values v) value;
     anomalies_x :=
       if is_anomaly then append (anomalies_x v) timestamp
       else anomalies_x v;
     anomalies_y :=
       if is_anomaly then append (anomalies_y v) value
       else anomalies_y v |}.

(** The rest of [update]: the plot is brought up to date and redrawn. *)
Definition redraw (v : RealTimeVisualizer) (timestamp : Z) : P bool :=
  invoke (line_set_data (items (timestamps v)) (items (values v))) ;;
  rows <- lift (np_c_ (items (anomalies_x v)) (items (anomalies_y v))) ;;
  invoke (scatter_set_offsets rows) ;;
  (if (0 <? len (values v))%Z then
     y_min <- lift (py_min (items (values v))) ;;
     y_max <- lift (py_max (items (values v))) ;;
     let (y_min_limit, y_max_limit) := _calculate_y_limits y_min y_max in
     invoke (ax_set_ylim y_min_limit y_max_limit)
   else ret tt) ;;
  let x_min := Z.max 0 (timestamp - max_points v) in
  invoke (ax_set_xlim x_min (timestamp + 5)) ;;
  try_except (invoke canvas_draw ;; invoke canvas_flush_events).

(** [update(timestamp, value, is_anomaly)]: what it returns or raises, the
    calls it made on the plotting library, and the object it leaves (the
    sample is stored before anything can raise). *)
Definition update (bk : backend) (v : RealTimeVisualizer) (timestamp : Z)
    (value : float) (is_anomaly : bool)
  : result bool * list call * RealTimeVisualizer :=
  let v1 := store v timestamp value is_anomaly in
  (redraw v1 timestamp bk, v1).

End Visualizer.

(* ================================================================== *)
(** * main.py                                                          *)
(* ================================================================== *)

Module System.

(** The attributes of an [AnomalyDetectionSystem] object. *)
Record AnomalyDetectionSystem : Type := mkSystem {
  running : bool;
  detector : Detector.AnomalyDetector;
  simulator : Simulator.DataStreamSimulator;
  visualizer : Visualizer.RealTimeVisualizer
}.

(** The data part of [__init__()]: the three components with the
    parameters of the source, [noise_level=0.3] and the defaults
    [seasonal_period=24], [trend_factor=0.1], [max_points=200]. *)
Definition init : result AnomalyDetectionSystem :=
  match Detector.init 50 2.5,
        Simulator.init 24 0x1.999999999999ap-4 0x1.3333333333333p-2,
        Visualizer.init 200 with
  | Ok d, Ok g, Ok v =>
      Ok {| running := true; detector := d; simulator := g;
            visualizer := v |}
  | Raise e, _, _ => Raise e
  | _, Raise e, _ => Raise e
  | _, _, Raise e => Raise e
  end.

(** [signal_handler(signum, frame)] *)
Definition signal_handler (s : AnomalyDetectionSystem)
  : AnomalyDetectionSystem :=
  {| running := false; detector := detector s;
     simulator := simulator s; visualizer := visualizer s |}.

(** What the world contributes to one turn of the loop of [run]: whether a
    signal came in before the loop tests [self.running], the values the
    random generator hands out, and how the plotting library answers. *)
Record turn : Type := mkTurn {
  signalled : bool;
  turn_draws : Simulator.draws;
  turn_backend : Visualizer.backend
}.

(** How the loop of [run] ended, if it did within the turns given. *)
Inductive ending : Type :=
| Running                 (* the loop goes on *)
| Stopped                 (* [self.running] was found [False] *)
| WindowClosed            (* [update] returned [False] *)
| Failed (e : exn).       (* an exception reached [except Exception] *)

(** The result of [run]: how it ended, the object it leaves and the
    [(timestamp, value, is_anomaly)] given to [update], in order. *)
Record outcome : Type := mkOutcome {
  ended : ending;
  final : AnomalyDetectionSystem;
  shown : list (Z * float * bool)
}.

Section Libm.

Variable np_sin : float -> float.

(** [run()]: the loop, one [turn] per iteration. *)
Fixpoint run (s : AnomalyDetectionSystem) (turns : list turn) : outcome :=
  match turns with
  | [] => mkOutcome Running s []
  | t :: turns' =>
    let s := if signalled t then signal_handler s else s in
    if negb (running s) then mkOutcome Stopped s []
    else
      match Simulator.get_next_value np_sin (simulator s) (turn_draws t) with
      | Raise e => mkOutcome (Failed e) s []
      | Ok (value, g1) =>
        match Detector.is_anomaly value (detector s) with
        | Raise e =>
            mkOutcome (Failed e)
              (mkSystem (running s) (detector s) g1 (visualizer s)) []
        | Ok (is_anomaly, d1, _) =>
          let timestamp := Simulator.counter g1 in
          let '(r, _, v1) :=
            Visualizer.update (turn_backend t) (visualizer s)
              timestamp value is_anomaly in
          let sample := (timestamp, value, is_anomaly) in
          match r with
          | Raise e =>
              mkOutcome (Failed e) (mkSystem (running s) d1 g1 v1) [sample]
          | Ok false =>
              mkOutcome WindowClosed (mkSystem false d1 g1 v1) [sample]
          | Ok true =>
              let o := run (mkSystem (running s) d1 g1 v1) turns' in
              mkOutcome (ended o) (final o) (sample :: shown o)
          end
        end
      end
  end.

End Libm.

End System.

(* ================================================================== *)
(** * Specification-level definitions                                  *)
(* ================================================================== *)

Import Deque Numpy Detector.

(** The last [n] items of a list, in order. *)
Definition lastn {A : Type} (n : nat) (l : list A) : list A :=
  skipn (length l - n) l.

(** The warm-up length [window_size // 2] (floor division). *)
Definition warmup (window_size : Z) : Z := (window_size / 2)%Z.

(** The object a detector built with [(ws, th)] is after it has been fed
    the samples [xs], in closed form. *)
Definition state_after (ws : Z) (th : float) (xs : list float)
  : AnomalyDetector :=
  let w := lastn (Z.to_nat ws) xs in
  let warm := (warmup ws <? Z.of_nat (length xs))%Z in
  {| window_size := ws;
     threshold := th;
     values := {| maxlen := ws; items := w |};
     is_initialized := warm;
     mean := if warm then Some (np_mean w) else None;
     std := if warm then Some (np_std w) else None |}.

(** The answer the specification gives for a sample [v] judged against a
    window [w]: [|z| > threshold] for the z-score of [v] against the mean
    and the standard deviation of [w]. *)
Definition judged (th : float) (w : list float) (v : float) : bool :=
  (th <? abs (z_score v (np_mean w) (np_std w)))%float.

(** The windows on which a call past warm-up computes statistics, when
    the samples [xs] came before the sample [v]: the window as found, on
    the first such call only, and the window with the sample stored. *)
Definition stats_windows (ws : Z) (xs : list float) (v : float)
  : list (list float) :=
  (if (warmup ws <? Z.of_nat (length xs))%Z then []
   else [lastn (Z.to_nat ws) xs])
  ++ [lastn (Z.to_nat ws) (xs ++ [v])].

(** The answers the specification gives for the samples [ys] that follow
    the samples [seen]: [False] during warm-up, then each sample judged
    against the window that precedes it. *)
Fixpoint spec_answers (ws : Z) (th : float) (seen ys : list float)
  : list bool :=
  match ys with
  | [] => []
  | y :: ys' =>
      (if (Z.of_nat (length seen) <? warmup ws)%Z then false
       else judged th (lastn (Z.to_nat ws) seen) y)
      :: spec_answers ws th (seen ++ [y]) ys'
  end.

(** The windows on which statistics are computed while [ys] is fed after
    [seen]. *)
Fixpoint spec_windows (ws : Z) (seen ys : list float)
  : list (list float) :=
  match ys with
  | [] => []
  | y :: ys' =>
      (if (Z.of_nat (length seen) <? warmup ws)%Z then []
       else stats_windows ws seen y)
      ++ spec_windows ws (seen ++ [y]) ys'
  end.

(** A window of zeros. *)
Definition zeros (a : list float) : Prop :=
  Forall (fun x => x = 0%float) a.









(** One of the eight accumulators of the unrolled summation is in [P]. *)
Definition some_acc (P : float -> Prop) (r : acc8) : Prop :=
  P (r0 r) \/ P (r1 r) \/ P (r2 r) \/ P (r3 r) \/
  P (r4 r) \/ P (r5 r) \/ P (r6 r) \/ P (r7 r).

(** The values a sum that met [+infinity] can have, and likewise for
    [-infinity]. *)
Definition pinf_or_nan (x : float) : Prop := x = infinity \/ x = nan.
Definition ninf_or_nan (x : float) : Prop := x = neg_infinity \/ x = nan.

(** A sample that is a NaN or an infinity. *)
Definition not_finite (x : float) : Prop := is_finite x = false.

(** A sample as [update] receives it: [(timestamp, value, is_anomaly)]. *)
Definition sample : Type := (Z * float * bool)%type.
Definition sample_time (e : sample) : Z := fst (fst e).
Definition sample_value (e : sample) : float := snd (fst e).
Definition sample_flag (e : sample) : bool := snd e.

(** The object a sequence of [update] calls leaves, whatever the plotting
    library answered: each call stores its sample first. *)
Definition stored (v : Visualizer.RealTimeVisualizer) (es : list sample)
  : Visualizer.RealTimeVisualizer :=
  fold_left
    (fun v e =>
       Visualizer.store v (sample_time e) (sample_value e) (sample_flag e))
    es v.

(** The visualizer built with [max_points = mp] after it was given the
    samples [es], in closed form. *)
Definition viz_after (mp : Z) (es : list sample)
  : Visualizer.RealTimeVisualizer :=
  let n := Z.to_nat mp in
  let marked := filter sample_flag es in
  {| Visualizer.max_points := mp;
     Visualizer.timestamps :=
       Collections.mkDeque mp (lastn n (map sample_time es));
     Visualizer.values :=
       Collections.mkDeque mp (lastn n (map sample_value es));
     Visualizer.anomalies_x :=
       Collections.mkDeque mp (lastn n (map sample_time marked));
     Visualizer.anomalies_y :=
       Collections.mkDeque mp (lastn n (map sample_value marked)) |}.

(** Whether the redraw goes through. *)
Definition redraws (bk : Visualizer.backend) : bool :=
  match bk Visualizer.canvas_draw, bk Visualizer.canvas_flush_events with
  | None, None => true
  | _, _ => false
  end.

(** The samples of a stream: the values [vs], each with its answer [bs]
    and the timestamps [k + 1, k + 2, ...]. *)
Definition samples_from (k : Z) (vs : list float) (bs : list bool)
  : list sample :=
  combine
    (combine (map (fun i => (k + 1 + Z.of_nat i)%Z) (seq 0 (length vs))) vs)
    bs.

(** The system as [run] finds it after the values [xs] went through. *)
Definition system_after (xs : list float) (es : list sample)
  : System.AnomalyDetectionSystem :=
  {| System.running := true;
     System.detector := state_after 50 2.5 xs;
     System.simulator :=
       Simulator.mkSimulator 24 0x1.999999999999ap-4 0x1.3333333333333p-2
         (Z.of_nat (length xs));
     System.visualizer := viz_after 200 es |}.

(** A stand-in for the library sine, for worked examples: the statements
    below hold for every function in its place. *)
Definition sin_series (x : float) : float := (x - x * x * x / 6)%float.

(* ================================================================== *)
(** * Lists: the last items of a growing sequence                      *)
(* ================================================================== *)

Section LastN.

Context {A : Type}.
Implicit Types (l : list A) (n k : nat).

Lemma lastn_length n l : length (lastn n l) = Nat.min n (length l).
Proof. unfold lastn. rewrite length_skipn. lia. Qed.

Lemma lastn_nil n : lastn n (@nil A) = [].
Proof. unfold lastn. now rewrite skipn_nil. Qed.

Lemma lastn_all n l : (length l <= n)%nat -> lastn n l = l.
Proof.
  intros H. unfold lastn.
  replace (length l - n)%nat with 0%nat by lia. reflexivity.
Qed.

Lemma tl_skipn k l : tl (skipn k l) = skipn (S k) l.
Proof.
  revert l. induction k as [|k IH]; intros [|a l]; try reflexivity.
  simpl skipn at 1. rewrite IH. reflexivity.
Qed.

(** Appending one item to the last [n] items and dropping the oldest one
    on overflow gives the last [n] items of the extended sequence. *)
Lemma lastn_snoc n l (v : A) :
  lastn n (l ++ [v]) =
  (let w := lastn n l ++ [v] in
   if (Z.of_nat n <? Z.of_nat (length w))%Z then tl w else w).
Proof.
  cbv zeta. rewrite length_app, lastn_length. simpl length.
  destruct (Z.ltb_spec (Z.of_nat n) (Z.of_nat (Nat.min n (length l) + 1))) as [H|H].
  - assert (Hn : (n <= length l)%nat) by lia.
    unfold lastn. rewrite length_app. simpl length.
    replace (length l + 1 - n)%nat with (S (length l - n)) by lia.
    rewrite <- tl_skipn. rewrite skipn_app.
    replace (length l - n - length l)%nat with 0%nat by lia.
    reflexivity.
  - assert (Hn : (length l < n)%nat) by lia.
    rewrite !lastn_all by (rewrite ?length_app; simpl; lia).
    reflexivity.
Qed.

End LastN.

(* ================================================================== *)
(** * Pairwise summation terminates                                    *)
(* ================================================================== *)

(** The recursion of the pairwise summation splits an array of more than
    128 items into two shorter ones, so a fuel of the array's length is
    never used up: any two such fuels give the same sum. *)
Lemma pairwise_sum_fuel_stable (f1 : nat) :
  forall (f2 : nat) (a : list float),
    (length a <= f1)%nat -> (length a <= f2)%nat ->
    pairwise_sum_fuel f1 a = pairwise_sum_fuel f2 a.
Proof.
  induction f1 as [|f1 IH]; intros f2 a H1 H2.
  - destruct a; [|simpl in H1; lia]. destruct f2; reflexivity.
  - cbn [pairwise_sum_fuel].
    destruct f2 as [|f2].
    { destruct a; [reflexivity|simpl in H2; lia]. }
    cbn [pairwise_sum_fuel].
    destruct (Nat.ltb_spec (length a) 8); [reflexivity|].
    destruct (Nat.leb_spec (length a) 128); [reflexivity|].
    pose proof (Nat.div_mod_eq (length a) 2) as Hq.
    pose proof (Nat.mod_upper_bound (length a) 2) as Hr2.
    pose proof (Nat.mod_upper_bound (length a / 2) 8) as Hr8.
    pose proof (Nat.Div0.mod_le (length a / 2) 8) as Hle.
    set (q := (length a / 2)%nat) in *.
    set (r := (q mod 8)%nat) in *.
    assert (Hfirst : length (firstn (q - r) a) = (q - r)%nat)
      by (rewrite length_firstn; lia).
    assert (Hskip : length (skipn (q - r) a) = (length a - (q - r))%nat)
      by apply length_skipn.
    f_equal; apply IH; lia.
Qed.

Lemma pairwise_sum_enough_fuel (fuel : nat) (a : list float) :
  (length a <= fuel)%nat -> pairwise_sum_fuel fuel a = pairwise_sum a.
Proof.
  intros H. unfold pairwise_sum. apply pairwise_sum_fuel_stable; lia.
Qed.

(* ================================================================== *)
(** * The detector, one call at a time                                 *)
(* ================================================================== *)

(** Running the monadic code of a method on a given object. *)
Ltac run_method :=
  cbv beta iota zeta delta
    [is_anomaly update_statistics values_append set_is_initialized attr
     bind get put ret tell raise].

(** [is_anomaly] during warm-up, on any object. *)
Lemma is_anomaly_cold (d : AnomalyDetector) (v : float) :
  (Deque.len (values d) <? window_size d / 2)%Z = true ->
  is_anomaly v d =
  Ok (false,
      {| window_size := window_size d;
         threshold := threshold d;
         values := Deque.append (values d) v;
         is_initialized := is_initialized d;
         mean := mean d;
         std := std d |},
      []).
Proof.
  intros H. run_method. rewrite H. reflexivity.
Qed.

(** [is_anomaly] past warm-up on an object whose statistics are not
    initialized yet: they are computed from the window as found. *)
Lemma is_anomaly_first (d : AnomalyDetector) (v : float) :
  (Deque.len (values d) <? window_size d / 2)%Z = false ->
  is_initialized d = false ->
  let w := items (values d) in
  let w' := items (Deque.append (values d) v) in
  is_anomaly v d =
  Ok ((threshold d <? abs (z_score v (np_mean w) (np_std w)))%float,
      {| window_size := window_size d;
         threshold := threshold d;
         values := Deque.append (values d) v;
         is_initialized := true;
         mean := Some (np_mean w');
         std := Some (np_std w') |},
      [w; w']).
Proof.
  intros H Hi. run_method. rewrite H, Hi. reflexivity.
Qed.

(** [is_anomaly] past warm-up on an initialized object: the cached
    statistics are used. *)
Lemma is_anomaly_warm (d : AnomalyDetector) (v : float) (m s : float) :
  (Deque.len (values d) <? window_size d / 2)%Z = false ->
  is_initialized d = true ->
  mean d = Some m ->
  std d = Some s ->
  let w' := items (Deque.append (values d) v) in
  is_anomaly v d =
  Ok ((threshold d <? abs (z_score v m s))%float,
      {| window_size := window_size d;
         threshold := threshold d;
         values := Deque.append (values d) v;
         is_initialized := true;
         mean := Some (np_mean w');
         std := Some (np_std w') |},
      [w']).
Proof.
  intros H Hi Hm Hs. run_method. rewrite H, Hi. cbn [negb].
  rewrite Hm, Hs, Hi. reflexivity.
Qed.

Section DetectorSteps.

Variables (ws : Z) (th : float).
Hypothesis ws_nonneg : (0 <= ws)%Z.

Lemma warmup_le : (0 <= warmup ws <= ws)%Z.
Proof.
  unfold warmup. split.
  - apply Z.div_pos; lia.
  - apply Z.div_le_upper_bound; lia.
Qed.

(** The length test of [is_anomaly] on a reachable object. *)
Lemma len_state_after xs :
  Deque.len (values (state_after ws th xs)) =
  Z.min ws (Z.of_nat (length xs)).
Proof.
  unfold Deque.len, state_after. simpl.
  rewrite lastn_length. lia.
Qed.

Lemma in_warmup_iff xs :
  (Deque.len (values (state_after ws th xs))
     <? window_size (state_after ws th xs) / 2)%Z =
  (Z.of_nat (length xs) <? warmup ws)%Z.
Proof.
  change (window_size (state_after ws th xs) / 2)%Z with (warmup ws).
  rewrite len_state_after. pose proof warmup_le.
  destruct (Z.ltb_spec (Z.of_nat (length xs)) (warmup ws));
    destruct (Z.ltb_spec (Z.min ws (Z.of_nat (length xs))) (warmup ws));
    try reflexivity; lia.
Qed.

(** The window after one more [append]. *)
Lemma append_state_after xs v :
  Deque.append (values (state_after ws th xs)) v =
  {| maxlen := ws; items := lastn (Z.to_nat ws) (xs ++ [v]) |}.
Proof.
  unfold Deque.append, state_after. simpl maxlen. simpl items.
  f_equal. rewrite lastn_snoc. cbv zeta.
  rewrite Z2Nat.id by exact ws_nonneg. reflexivity.
Qed.

(** A call during warm-up: the sample is stored, the answer is [False],
    no statistics are computed. *)
Lemma is_anomaly_warmup xs v :
  (Z.of_nat (length xs) < warmup ws)%Z ->
  is_anomaly v (state_after ws th xs) =
  Ok (false, state_after ws th (xs ++ [v]), []).
Proof.
  intros Hlt.
  rewrite is_anomaly_cold
    by (rewrite in_warmup_iff; apply Z.ltb_lt; exact Hlt).
  rewrite append_state_after.
  unfold state_after. rewrite length_app. simpl length.
  cbn [window_size threshold is_initialized mean std].
  destruct (Z.ltb_spec (warmup ws) (Z.of_nat (length xs))); [lia|].
  destruct (Z.ltb_spec (warmup ws) (Z.of_nat (length xs + 1))); [lia|].
  reflexivity.
Qed.

(** A call past warm-up: the sample is judged against the window as it
    was found, then stored, and the statistics are recomputed. *)
Lemma is_anomaly_steady xs v :
  (warmup ws <= Z.of_nat (length xs))%Z ->
  is_anomaly v (state_after ws th xs) =
  Ok (judged th (lastn (Z.to_nat ws) xs) v,
      state_after ws th (xs ++ [v]),
      stats_windows ws xs v).
Proof.
  intros Hge.
  assert (Hcold : (Z.of_nat (length xs) <? warmup ws)%Z = false)
    by (apply Z.ltb_ge; exact Hge).
  assert (Hnew : (warmup ws <? Z.of_nat (length (xs ++ [v])))%Z = true).
  { rewrite length_app. simpl. apply Z.ltb_lt. lia. }
  unfold stats_windows, judged.
  destruct (warmup ws <? Z.of_nat (length xs))%Z eqn:Hw.
  - rewrite is_anomaly_warm
      with (m := np_mean (lastn (Z.to_nat ws) xs))
           (s := np_std (lastn (Z.to_nat ws) xs)).
    + rewrite append_state_after. cbn [items].
      unfold state_after. rewrite Hnew. reflexivity.
    + rewrite in_warmup_iff. exact Hcold.
    + unfold state_after. cbn [is_initialized]. exact Hw.
    + unfold state_after. cbn [mean]. rewrite Hw. reflexivity.
    + unfold state_after. cbn [std]. rewrite Hw. reflexivity.
  - rewrite is_anomaly_first.
    + rewrite append_state_after. cbn [items].
      unfold state_after. rewrite Hnew. reflexivity.
    + rewrite in_warmup_iff. exact Hcold.
    + unfold state_after. cbn [is_initialized]. exact Hw.
Qed.

End DetectorSteps.

(* ================================================================== *)
(** * The detector over a whole sequence                               *)
(* ================================================================== *)

(** Construction succeeds exactly for a window size that [deque] accepts
    as [maxlen]. *)
Lemma init_ok (ws : Z) (th : float) :
  (0 <= ws <= Deque.ssize_max)%Z ->
  init ws th = Ok (state_after ws th []).
Proof.
  intros [H0 H1]. unfold init, Deque.new, Deque.ssize_min.
  destruct (Z.ltb_spec ws (- 2 ^ 63)); [lia|].
  destruct (Z.ltb_spec Deque.ssize_max ws); [lia|].
  destruct (Z.ltb_spec ws 0); [lia|]. cbn [orb].
  unfold state_after. rewrite lastn_nil. simpl length.
  pose proof (warmup_le H0).
  destruct (Z.ltb_spec (warmup ws) (Z.of_nat 0)); [lia|]. reflexivity.
Qed.

Lemma init_inv (ws : Z) (th : float) (d : AnomalyDetector) :
  init ws th = Ok d ->
  (0 <= ws <= Deque.ssize_max)%Z /\ d = state_after ws th [].
Proof.
  intros H.
  assert (Hr : (0 <= ws <= Deque.ssize_max)%Z).
  { unfold init, Deque.new in H.
    destruct (Z.ltb_spec ws Deque.ssize_min); [discriminate|].
    destruct (Z.ltb_spec Deque.ssize_max ws); [discriminate|].
    destruct (Z.ltb_spec ws 0); [discriminate|]. lia. }
  split; [exact Hr|].
  rewrite (init_ok th Hr) in H. congruence.
Qed.

(** Feeding [ys] to the object reached after [xs]: it never raises, gives
    the answers of the specification and reaches the object after
    [xs ++ ys]. *)
Lemma feed_state_after (ws : Z) (th : float) :
  (0 <= ws)%Z ->
  forall ys xs,
    feed ys (state_after ws th xs) =
    Ok (spec_answers ws th xs ys,
        state_after ws th (xs ++ ys),
        spec_windows ws xs ys).
Proof.
  intros Hws. induction ys as [|y ys IH]; intros xs.
  - simpl. unfold ret. rewrite app_nil_r. reflexivity.
  - cbn [feed spec_answers spec_windows]. unfold bind at 1.
    destruct (Z.ltb_spec (Z.of_nat (length xs)) (warmup ws)) as [Hc|Hc].
    + rewrite (is_anomaly_warmup th Hws xs y Hc).
      unfold bind at 1. rewrite IH. unfold ret.
      rewrite <- app_assoc, app_nil_r. reflexivity.
    + rewrite (is_anomaly_steady th Hws xs y Hc).
      unfold bind at 1. rewrite IH. unfold ret.
      rewrite <- app_assoc, app_nil_r. reflexivity.
Qed.

Lemma run_ok (ws : Z) (th : float) (xs : list float) :
  (0 <= ws <= Deque.ssize_max)%Z ->
  run ws th xs =
  Ok (spec_answers ws th [] xs, state_after ws th xs, spec_windows ws [] xs).
Proof.
  intros Hr. unfold run. rewrite (init_ok th Hr).
  rewrite feed_state_after by lia. reflexivity.
Qed.

Lemma run_inv (ws : Z) (th : float) (xs : list float) bs d log :
  run ws th xs = Ok (bs, d, log) ->
  (0 <= ws <= Deque.ssize_max)%Z /\
  bs = spec_answers ws th [] xs /\
  d = state_after ws th xs /\
  log = spec_windows ws [] xs.
Proof.
  intros H. unfold run in H.
  destruct (init ws th) as [d0|e] eqn:Hi; [|discriminate].
  apply init_inv in Hi. destruct Hi as [Hr ->].
  rewrite feed_state_after in H by lia. simpl app in H.
  inversion H. auto.
Qed.

(** Answers during warm-up. *)
Lemma spec_answers_warmup (ws : Z) (th : float) :
  forall ys xs,
    (Z.of_nat (length xs + length ys) <= warmup ws)%Z ->
    spec_answers ws th xs ys = repeat false (length ys) /\
    spec_windows ws xs ys = [].
Proof.
  induction ys as [|y ys IH]; intros xs H; [split; reflexivity|].
  cbn [spec_answers spec_windows length repeat]. simpl length in H.
  destruct (Z.ltb_spec (Z.of_nat (length xs)) (warmup ws)); [|lia].
  destruct (IH (xs ++ [y])) as [-> ->].
  - rewrite length_app. simpl. lia.
  - split; reflexivity.
Qed.

(** What a successful run tells about its object. *)
Lemma run_len (ws : Z) (th : float) (xs : list float) bs d log :
  run ws th xs = Ok (bs, d, log) ->
  (0 <= ws)%Z /\ d = state_after ws th xs /\
  Deque.len (values d) = Z.min ws (Z.of_nat (length xs)).
Proof.
  intros H. apply run_inv in H. destruct H as ([H0 _] & _ & -> & _).
  repeat split; [exact H0|]. apply len_state_after. exact H0.
Qed.

(* ================================================================== *)
(** * Properties of the detector                                       *)
(* ================================================================== *)

Open Scope float_scope.

(** C1.  A call of [is_anomaly] made when the window already holds at least
    [window_size // 2] samples answers [True] exactly when
    [|(value - mean) / (std + 1e-10)| > threshold], where [mean] and [std]
    are those of the window as the call finds it: the samples fed before
    the current one (the last [window_size] of them), never the current
    value itself. *)
Theorem is_anomaly_judges_against_preceding_window :
  forall (ws : Z) (th : float) (xs : list float) (v : float) bs d log,
    run ws th xs = Ok (bs, d, log) ->
    (warmup ws <= Deque.len (values d))%Z ->
    window d = lastn (Z.to_nat ws) xs /\
    exists d' log',
      is_anomaly v d =
      Ok (th <? abs ((v - np_mean (window d)) / (np_std (window d) + epsilon)),
          d', log').
Proof.
  intros ws th xs v bs d log Hrun Hlen.
  destruct (run_len _ _ _ Hrun) as (Hws & -> & Hl).
  split; [reflexivity|].
  rewrite Hl in Hlen. pose proof (warmup_le Hws).
  rewrite is_anomaly_steady by lia.
  eexists. eexists. reflexivity.
Qed.

Lemma is_anomaly_judges_against_preceding_window_witness :
  window (state_after 5 2.5 [1; 1; 1; 1; 1]) = [1; 1; 1; 1; 1] /\
  exists d' log',
    is_anomaly 10 (state_after 5 2.5 [1; 1; 1; 1; 1]) = Ok (true, d', log').
Proof.
  destruct (@is_anomaly_judges_against_preceding_window
              5 2.5 [1; 1; 1; 1; 1] 10
              (spec_answers 5 2.5 [] [1; 1; 1; 1; 1])
              (state_after 5 2.5 [1; 1; 1; 1; 1])
              (spec_windows 5 [] [1; 1; 1; 1; 1]))
    as [Hw (d' & log' & H)].
  - vm_compute. reflexivity.
  - vm_compute. discriminate.
  - split; [exact Hw|]. exists d', log'. exact H.
Defined.

(** C2.  Each of the first [window_size // 2] calls stores its value and
    answers [False] whatever the values are, and computes no statistics:
    after [k <= window_size // 2] calls the window holds the [k] samples,
    [is_initialized] is still [False] and [mean] and [std] are not set.
    A call made once the window holds at least [window_size // 2] samples
    leaves [is_initialized] set, and a call made with [is_initialized] set
    leaves it set: after more than [window_size // 2] calls it is [True]
    for good. *)
Theorem warmup_gate :
  forall (ws : Z) (th : float) (xs : list float) (v : float) bs d log,
    run ws th xs = Ok (bs, d, log) ->
    ((Z.of_nat (length xs) <= warmup ws)%Z ->
       bs = repeat false (length xs) /\ log = [] /\
       window d = xs /\ is_initialized d = false /\
       mean d = None /\ std d = None) /\
    (exists b d' log',
       is_anomaly v d = Ok (b, d', log') /\
       ((warmup ws <= Deque.len (values d))%Z -> is_initialized d' = true) /\
       (is_initialized d = true -> is_initialized d' = true) /\
       (is_initialized d' = true ->
          (warmup ws <= Deque.len (values d'))%Z)) /\
    is_initialized d = (warmup ws <? Z.of_nat (length xs))%Z.
Proof.
  intros ws th xs v bs d log Hrun.
  destruct (run_len _ _ _ Hrun) as (Hws & Hd & Hl).
  apply run_inv in Hrun. destruct Hrun as (Hr & -> & _ & ->).
  pose proof (warmup_le Hws) as Hwu. subst d.
  split; [|split].
  - intros Hk.
    destruct (@spec_answers_warmup ws th xs []) as [-> ->];
      [simpl; lia|].
    repeat split; unfold state_after, window; cbn [values items
      is_initialized mean std];
      destruct (Z.ltb_spec (warmup ws) (Z.of_nat (length xs))); try lia;
      try reflexivity.
    apply lastn_all. lia.
  - destruct (Z.ltb_spec (Z.of_nat (length xs)) (warmup ws)) as [Hc|Hc].
    + rewrite is_anomaly_warmup by assumption.
      eexists. eexists. eexists. split; [reflexivity|].
      rewrite !len_state_after by exact Hws.
      unfold state_after. cbn [is_initialized].
      rewrite length_app. simpl length.
      repeat split.
      * intros ?. lia.
      * destruct (Z.ltb_spec (warmup ws) (Z.of_nat (length xs))); [lia|].
        discriminate.
      * destruct (Z.ltb_spec (warmup ws) (Z.of_nat (length xs + 1)));
          [lia|discriminate].
    + rewrite is_anomaly_steady by assumption.
      eexists. eexists. eexists. split; [reflexivity|].
      rewrite !len_state_after by exact Hws.
      unfold state_after. cbn [is_initialized].
      rewrite length_app. simpl length.
      assert (Ht : (warmup ws <? Z.of_nat (length xs + 1))%Z = true)
        by (apply Z.ltb_lt; lia).
      rewrite Ht. repeat split; intros; lia.
  - reflexivity.
Qed.

Lemma warmup_gate_witness :
  answers 5 2.5 [1000; -7] = Ok [false; false] /\
  exists b d' log',
    is_anomaly 3 (state_after 5 2.5 [1000; -7]) = Ok (b, d', log') /\
    is_initialized d' = true.
Proof.
  destruct (@warmup_gate 5 2.5 [1000; -7] 3
              (spec_answers 5 2.5 [] [1000; -7])
              (state_after 5 2.5 [1000; -7])
              (spec_windows 5 [] [1000; -7]))
    as (_ & (b & d' & log' & H & Hwarm & _) & _).
  - vm_compute. reflexivity.
  - split; [vm_compute; reflexivity|].
    exists b, d', log'. split; [exact H|].
    apply Hwarm. vm_compute. discriminate.
Defined.

(** C4.  The window never holds more than [window_size] samples; a call
    that finds the window full drops exactly the oldest sample and stores
    the new one last (a call that finds room only stores); and after
    [window_size + k] samples, [k >= 1], the window is exactly the last
    [window_size] samples, in arrival order. *)
Theorem window_is_bounded_fifo :
  forall (ws : Z) (th : float) (xs : list float) (v : float) bs d log,
    run ws th xs = Ok (bs, d, log) ->
    (Deque.len (values d) <= ws)%Z /\
    window d = lastn (Z.to_nat ws) xs /\
    (exists b d' log',
       is_anomaly v d = Ok (b, d', log') /\
       (Deque.len (values d') <= ws)%Z /\
       (Deque.len (values d) = ws -> window d' = tl (window d ++ [v])) /\
       ((Deque.len (values d) < ws)%Z -> window d' = window d ++ [v])) /\
    (forall k : nat,
       (1 <= k)%nat -> Z.of_nat (length xs) = (ws + Z.of_nat k)%Z ->
       window d = skipn k xs /\ Z.of_nat (length (window d)) = ws).
Proof.
  intros ws th xs v bs d log Hrun.
  destruct (run_len _ _ _ Hrun) as (Hws & -> & Hl).
  pose proof (warmup_le Hws) as Hwu.
  split; [rewrite Hl; lia|]. split; [reflexivity|]. split.
  - assert (Hstep : exists b log',
               is_anomaly v (state_after ws th xs) =
               Ok (b, state_after ws th (xs ++ [v]), log')).
    { destruct (Z.ltb_spec (Z.of_nat (length xs)) (warmup ws)).
      - rewrite is_anomaly_warmup by assumption. eauto.
      - rewrite is_anomaly_steady by assumption. eauto. }
    destruct Hstep as (b & log' & Hstep).
    exists b, (state_after ws th (xs ++ [v])), log'.
    split; [exact Hstep|].
    rewrite !len_state_after by exact Hws.
    split; [lia|].
    unfold window, state_after. cbn [values items].
    rewrite lastn_snoc. cbv zeta.
    rewrite length_app, lastn_length. simpl length.
    split; intros Hfull.
    + destruct (Z.ltb_spec (Z.of_nat (Z.to_nat ws))
                  (Z.of_nat (Nat.min (Z.to_nat ws) (length xs) + 1)));
        [reflexivity|lia].
    + destruct (Z.ltb_spec (Z.of_nat (Z.to_nat ws))
                  (Z.of_nat (Nat.min (Z.to_nat ws) (length xs) + 1)));
        [lia|reflexivity].
  - intros k Hk Hlen.
    unfold window, state_after. cbn [values items].
    split.
    + unfold lastn. f_equal. lia.
    + rewrite lastn_length. lia.
Qed.

Lemma window_is_bounded_fifo_witness :
  window (state_after 3 2.5 [1; 2; 3; 4; 5]) = [3; 4; 5] /\
  exists b d' log',
    is_anomaly 6 (state_after 3 2.5 [1; 2; 3; 4; 5]) = Ok (b, d', log') /\
    window d' = [4; 5; 6].
Proof.
  destruct (@window_is_bounded_fifo 3 2.5 [1; 2; 3; 4; 5] 6
              (spec_answers 3 2.5 [] [1; 2; 3; 4; 5])
              (state_after 3 2.5 [1; 2; 3; 4; 5])
              (spec_windows 3 [] [1; 2; 3; 4; 5]))
    as (_ & _ & (b & d' & log' & H & _ & Hfull & _) & Hlast).
  - vm_compute. reflexivity.
  - split.
    + apply (Hlast 2%nat); [lia | reflexivity].
    + exists b, d', log'. split; [exact H|].
      rewrite Hfull; reflexivity.
Defined.

(** C5.  After every call of [is_anomaly] made past warm-up, the cached
    [mean] and [std] are the mean and the standard deviation of the window
    as the call leaves it, the current value stored. *)
Theorem cached_statistics_follow_the_window :
  forall (ws : Z) (th : float) (xs : list float) (v : float) bs d log,
    run ws th xs = Ok (bs, d, log) ->
    (warmup ws <= Deque.len (values d))%Z ->
    exists b d' log',
      is_anomaly v d = Ok (b, d', log') /\
      window d' = lastn (Z.to_nat ws) (xs ++ [v]) /\
      mean d' = Some (np_mean (window d')) /\
      std d' = Some (np_std (window d')).
Proof.
  intros ws th xs v bs d log Hrun Hlen.
  destruct (run_len _ _ _ Hrun) as (Hws & -> & Hl).
  rewrite Hl in Hlen. pose proof (warmup_le Hws).
  rewrite is_anomaly_steady by lia.
  eexists. eexists. eexists. split; [reflexivity|].
  unfold window, state_after. cbn [values items mean std].
  rewrite length_app. simpl length.
  assert (Ht : (warmup ws <? Z.of_nat (length xs + 1))%Z = true)
    by (apply Z.ltb_lt; lia).
  rewrite Ht. repeat split.
Qed.

Lemma cached_statistics_follow_the_window_witness :
  exists b d' log',
    is_anomaly 10 (state_after 2 2.5 [1; 2; 4]) = Ok (b, d', log') /\
    window d' = [4; 10] /\
    mean d' = Some 7 /\
    std d' = Some 3.
Proof.
  destruct (@cached_statistics_follow_the_window 2 2.5 [1; 2; 4] 10
              (spec_answers 2 2.5 [] [1; 2; 4])
              (state_after 2 2.5 [1; 2; 4])
              (spec_windows 2 [] [1; 2; 4]))
    as (b & d' & log' & H & Hw & Hm & Hs).
  - vm_compute. reflexivity.
  - vm_compute. discriminate.
  - exists b, d', log'. split; [exact H|].
    rewrite Hm, Hs, Hw. repeat split.
Defined.

(** C6.  With [window_size = 5] and [threshold = 2.5], the samples
    [1, 1, 1, 1, 1] are all answered [False] and the following [10] is
    answered [True]; with [window_size = 10], ten [1]s, then [10], then
    [1] give [True] for the [10] and [False] for the final [1]. *)
Theorem spike_is_detected_and_absorbed :
  answers 5 2.5 [1; 1; 1; 1; 1; 10] =
    Ok [false; false; false; false; false; true] /\
  answers 10 2.5 (repeat 1 10 ++ [10; 1]) =
    Ok (repeat false 10 ++ [true; false]).
Proof.
  split; vm_compute; reflexivity.
Qed.

(* ================================================================== *)
(** * Binary64 arithmetic: the facts the remaining proofs need         *)
(* ================================================================== *)

Section Binary64.

Local Open Scope float_scope.

Lemma Prim2SF_nan : Prim2SF nan = S754_nan.
Proof. reflexivity. Qed.

Lemma Prim2SF_infinity : Prim2SF infinity = S754_infinity false.
Proof. reflexivity. Qed.

Lemma Prim2SF_neg_zero : Prim2SF neg_zero = S754_zero true.
Proof. reflexivity. Qed.

(** Deciding an equation between floats on their specification. *)
Ltac by_spec :=
apply Prim2SF_inj;
rewrite ?add_spec, ?sub_spec, ?mul_spec, ?div_spec, ?sqrt_spec,
  ?abs_spec, ?opp_spec.

Lemma sub_nan_r (x : float) : x - nan = nan.
Proof.
by_spec. rewrite Prim2SF_nan. unfold SF64sub, SFsub.
destruct (Prim2SF x); reflexivity.
Qed.

Lemma div_nan_r (x : float) : x / nan = nan.
Proof.
by_spec. rewrite Prim2SF_nan. unfold SF64div, SFdiv.
destruct (Prim2SF x); reflexivity.
Qed.

Lemma ltb_nan_r (x : float) : (x <? nan) = false.
Proof.
rewrite ltb_spec, Prim2SF_nan. unfold SFltb, SFcompare.
destruct (Prim2SF x) as [[|]|[|]| |[|] ? ?]; reflexivity.
Qed.

(** Adding plus infinity never gives a finite number. *)
Lemma add_infinity_r (x : float) : x + infinity = infinity \/ x + infinity = nan.
Proof.
destruct (Prim2SF x) as [s|[|]| |s m e] eqn:Hx.
- left. by_spec. rewrite Hx. reflexivity.
- right. by_spec. rewrite Hx. reflexivity.
- left. by_spec. rewrite Hx. reflexivity.
- right. by_spec. rewrite Hx. reflexivity.
- left. by_spec. rewrite Hx. reflexivity.
Qed.



Lemma add_neg_zero_l (x : float) : neg_zero + x = x.
Proof.
by_spec. rewrite Prim2SF_neg_zero. unfold SF64add, SFadd.
destruct (Prim2SF x) as [[|]|[|]| |s m e]; reflexivity.
Qed.

(** The shape of a finite float. *)
Lemma is_finite_cases (x : float) :
is_finite x = true ->
(exists s, Prim2SF x = S754_zero s) \/
(exists s m e, Prim2SF x = S754_finite s m e).
Proof.
unfold is_finite, is_nan, is_infinity.
rewrite !eqb_spec, abs_spec, Prim2SF_infinity.
destruct (Prim2SF x) as [s|s| |s m e]; intros H.
- left. exists s. reflexivity.
- destruct s; discriminate H.
- discriminate H.
- right. exists s, m, e. reflexivity.
Qed.

Lemma is_finite_of_shape (x : float) :
(exists s, Prim2SF x = S754_zero s) \/
(exists s m e, Prim2SF x = S754_finite s m e) ->
is_finite x = true.
Proof.
unfold is_finite, is_nan, is_infinity.
rewrite !eqb_spec, abs_spec, Prim2SF_infinity.
intros [[s ->]|(s & m & e & ->)].
- reflexivity.
- unfold SFeqb, SFcompare, SFabs.
  rewrite Z.compare_refl.
  assert (Hm : Pos.compare_cont Eq m m = Eq) by apply Pos.compare_refl.
  rewrite Hm. destruct s; rewrite ?Hm; reflexivity.
Qed.


(** A finite number minus itself is [+0]. *)
Lemma sub_diag_finite (x : float) : is_finite x = true -> x - x = 0.
Proof.
intros H. by_spec.
destruct (is_finite_cases x H) as [[s Hx]|(s & m & e & Hx)]; rewrite Hx.
- destruct s; reflexivity.
- unfold SF64sub, SFsub. rewrite Z.sub_diag. reflexivity.
Qed.

End Binary64.

(* ================================================================== *)
(** * Integers that convert to a float without rounding                *)
(* ================================================================== *)

Section ExactIntegers.

Local Open Scope Z_scope.

Lemma digits2_pos_iter_xO (p k : positive) :
digits2_pos (Pos.iter xO p k) = (digits2_pos p + k)%positive.
Proof.
induction k as [|k IH] using Pos.peano_ind.
- simpl. now rewrite Pos.add_1_r.
- rewrite Pos.iter_succ. simpl. rewrite IH.
  now rewrite Pos.add_succ_r.
Qed.

Lemma digits2_pos_lower (p : positive) :
2 ^ (Zpos (digits2_pos p) - 1) <= Zpos p.
Proof.
induction p as [p IH|p IH|]; simpl digits2_pos.
- rewrite Pos2Z.inj_succ.
  replace (Z.succ (Zpos (digits2_pos p)) - 1)
    with (Z.succ (Zpos (digits2_pos p) - 1)) by lia.
  rewrite Z.pow_succ_r by lia. lia.
- rewrite Pos2Z.inj_succ.
  replace (Z.succ (Zpos (digits2_pos p)) - 1)
    with (Z.succ (Zpos (digits2_pos p) - 1)) by lia.
  rewrite Z.pow_succ_r by lia. lia.
- simpl. lia.
Qed.

Lemma digits2_pos_small (p : positive) :
Zpos p < 2 ^ 53 -> Zpos (digits2_pos p) <= 53.
Proof.
intros H. pose proof (digits2_pos_lower p) as Hl.
destruct (Z_le_gt_dec (Zpos (digits2_pos p)) 53) as [|Hgt]; [assumption|].
assert (2 ^ 53 <= 2 ^ (Zpos (digits2_pos p) - 1))
  by (apply Z.pow_le_mono_r; lia).
lia.
Qed.

(** A mantissa of exactly 53 bits with an exponent in range is kept as it
  is by the rounding function. *)
Lemma binary_round_aux_exact (s : bool) (m : positive) (e : Z) :
Zpos (digits2_pos m) = 53 ->
-1074 <= e <= 971 ->
binary_round_aux prec emax s (Zpos m) e loc_Exact = S754_finite s m e.
Proof.
intros Hd He.
unfold binary_round_aux, shr_fexp, fexp, Zdigits2, SpecFloat.emin.
rewrite Hd.
replace (Z.max (53 + e - prec) (3 - emax - prec) - e) with 0
  by (unfold prec, emax; lia).
cbn [shr shr_record_of_loc shr_m loc_of_shr_record round_nearest_even
     Zdigits2].
rewrite Hd.
replace (Z.max (53 + e - prec) (3 - emax - prec) - e) with 0
  by (unfold prec, emax; lia).
cbn [shr shr_m].
destruct (Z.leb_spec e (emax - prec)) as [_|H];
  [reflexivity | unfold prec, emax in H; lia].
Qed.

(** An integer below [2 ^ 53] in magnitude is a float as it is: a finite
  number of the integer's sign. *)
Lemma binary_round_small (s : bool) (p : positive) :
Zpos p < 2 ^ 53 ->
exists m e,
  binary_round prec emax s p 0 = S754_finite s m e /\
  valid_binary (S754_finite s m e) = true.
Proof.
intros Hp. pose proof (@digits2_pos_small p Hp) as Hd.
assert (H1 : 1 <= Zpos (digits2_pos p)) by lia.
unfold binary_round, fexp, SpecFloat.emin.
replace (Z.max (Zpos (digits2_pos p) + 0 - prec) (3 - emax - prec))
  with (Zpos (digits2_pos p) - 53) by (unfold prec, emax; lia).
unfold shl_align.
destruct (Zpos (digits2_pos p) - 53 - 0) as [|k|k] eqn:Hk; [| lia |].
- assert (H53 : Zpos (digits2_pos p) = 53) by lia.
  exists p, 0. rewrite binary_round_aux_exact by lia.
  split; [reflexivity|].
  unfold FloatAxioms.valid_binary, SpecFloat.valid_binary, bounded,
    canonical_mantissa, fexp. rewrite H53. reflexivity.
- assert (Hm : Zpos (digits2_pos (Pos.iter xO p k)) = 53).
  { rewrite digits2_pos_iter_xO. lia. }
  exists (Pos.iter xO p k), (Zpos (digits2_pos p) - 53).
  rewrite binary_round_aux_exact by lia.
  split; [reflexivity|].
  unfold FloatAxioms.valid_binary, SpecFloat.valid_binary, bounded,
    canonical_mantissa, fexp, SpecFloat.emin. rewrite Hm.
  apply andb_true_iff. split.
  + apply Z.eqb_eq. unfold prec, emax. lia.
  + apply Z.leb_le. unfold prec, emax. lia.
Qed.

(** [float(n)] succeeds on every integer below [2 ^ 53] in magnitude. *)
Lemma py_float_of_int_small (n : Z) :
- 2 ^ 53 < n < 2 ^ 53 ->
exists c, py_float_of_int n = Ok c /\ is_finite c = true.
Proof.
intros Hn. unfold py_float_of_int.
assert (Hf : is_finite (SF2Prim (binary_normalize prec emax n 0 false))
             = true).
{ destruct n as [|p|p]; [reflexivity| |].
  - destruct (@binary_round_small false p) as (m & e & Hr & Hv); [lia|].
    simpl binary_normalize. rewrite Hr.
    apply is_finite_of_shape. right. exists false, m, e.
    apply Prim2SF_SF2Prim. exact Hv.
  - destruct (@binary_round_small true p) as (m & e & Hr & Hv); [lia|].
    simpl binary_normalize. rewrite Hr.
    apply is_finite_of_shape. right. exists true, m, e.
    apply Prim2SF_SF2Prim. exact Hv. }
rewrite Hf. eexists. split; [reflexivity|exact Hf].
Qed.

(** The count of a non-empty array of fewer than [2 ^ 53] items is a
  positive finite float. *)
Lemma count_shape (a : list float) :
a <> [] -> Z.of_nat (length a) < 2 ^ 53 ->
exists m e, Prim2SF (count a) = S754_finite false m e.
Proof.
intros Hne Hlen. unfold count. rewrite of_uint63_spec.
assert (Hpos : 0 < Z.of_nat (length a)).
{ destruct a; [congruence|simpl; lia]. }
rewrite Uint63.of_Z_spec.
rewrite Z.mod_small
  by (split; [lia|]; apply Z.lt_trans with (2 ^ 53); [lia|reflexivity]).
destruct (Z.of_nat (length a)) as [|p|p] eqn:Hp; try lia.
destruct (@binary_round_small false p) as (m & e & Hr & _); [lia|].
exists m, e. exact Hr.
Qed.

End ExactIntegers.

(* ================================================================== *)
(** * Magnitudes: sums and products that cannot overflow               *)
(* ================================================================== *)

Section Magnitudes.

Local Open Scope Z_scope.


















End Magnitudes.

Section FloatMagnitudes.

Local Open Scope float_scope.








End FloatMagnitudes.

(* ================================================================== *)
(** * Summing zeros                                                    *)
(* ================================================================== *)

Section SumOfZeros.

Local Open Scope float_scope.

Lemma zeros_split (k : nat) (a : list float) :
zeros a -> zeros (firstn k a) /\ zeros (skipn k a).
Proof.
intros H. apply Forall_app. rewrite firstn_skipn. exact H.
Qed.

Lemma accumulate_zeros (a : list float) :
zeros a -> accumulate 0 a = 0.
Proof.
unfold accumulate. induction 1 as [|x a Hx _ IH]; [reflexivity|].
subst x. simpl. exact IH.
Qed.

Lemma accumulate_neg_zero_zeros (a : list float) :
zeros a -> a <> [] -> accumulate neg_zero a = 0.
Proof.
intros H Hne. destruct H as [|x a Hx H]; [congruence|].
subst x. unfold accumulate. simpl. apply accumulate_zeros. exact H.
Qed.

Lemma unrolled_zeros (k : nat) :
forall a, (length a <= k)%nat -> zeros a ->
  exists t, unrolled (Acc8 0 0 0 0 0 0 0 0) a =
            (Acc8 0 0 0 0 0 0 0 0, t) /\ zeros t.
Proof.
induction k as [|k IH]; intros a Hlen Hz.
- destruct a; [|simpl in Hlen; lia]. exists []. split; [reflexivity|exact Hz].
- do 8 (destruct a as [|? a]; [eexists; split; [reflexivity|exact Hz]|]).
  unfold zeros in *.
  repeat match goal with
         | H : Forall _ (_ :: _) |- _ => inversion H; clear H; subst
         end.
  destruct (IH a) as (t & Ht & Hzt).
  + simpl in Hlen. lia.
  + assumption.
  + exists t. split; [|exact Hzt]. simpl. exact Ht.
Qed.

Lemma block_sum_zeros (a : list float) :
zeros a -> a <> [] -> block_sum a = 0.
Proof.
intros Hz Hne. unfold block_sum.
do 8 (destruct a as [|? a];
      [apply accumulate_neg_zero_zeros; assumption|]).
unfold zeros in *.
repeat match goal with
       | H : Forall _ (_ :: _) |- _ => inversion H; clear H; subst
       end.
destruct (@unrolled_zeros (length a) a) as (t & Ht & Hzt);
  [lia|assumption|].
rewrite Ht. cbn [r0 r1 r2 r3 r4 r5 r6 r7].
apply accumulate_zeros. exact Hzt.
Qed.

(** The sum of a non-empty window of zeros is [+0]; the fuel plays no
  part. *)
Lemma pairwise_sum_fuel_zeros (fuel : nat) :
forall a, zeros a -> a <> [] -> pairwise_sum_fuel fuel a = 0.
Proof.
induction fuel as [|fuel IH]; intros a Hz Hne; cbn [pairwise_sum_fuel].
- destruct (length a <? 8)%nat;
    [apply accumulate_neg_zero_zeros; assumption|].
  destruct (length a <=? 128)%nat; apply block_sum_zeros; assumption.
- destruct (length a <? 8)%nat;
    [apply accumulate_neg_zero_zeros; assumption|].
  destruct (length a <=? 128)%nat; [apply block_sum_zeros; assumption|].
  set (k := (length a / 2 - (length a / 2) mod 8)%nat).
  destruct (zeros_split k Hz) as [Hl Hr].
  destruct (firstn k a) as [|x l] eqn:El;
    destruct (skipn k a) as [|y r] eqn:Er.
  + exfalso. apply Hne. rewrite <- (firstn_skipn k a), El, Er.
    reflexivity.
  + rewrite (IH (y :: r)) by (assumption || discriminate).
    destruct fuel; reflexivity.
  + rewrite (IH (x :: l)) by (assumption || discriminate).
    destruct fuel; reflexivity.
  + rewrite (IH (x :: l)), (IH (y :: r))
      by (assumption || discriminate).
    reflexivity.
Qed.

(** On a non-empty array the reduction is the identity plus the pairwise
    sum. *)
Lemma np_sum_nonempty (a : list float) :
  a <> [] -> np_sum a = 0 + pairwise_sum a.
Proof.
  intros Hne. unfold np_sum. destruct a; [congruence|]. reflexivity.
Qed.

Lemma np_sum_zeros (a : list float) :
zeros a -> a <> [] -> np_sum a = 0.
Proof.
intros Hz Hne. unfold np_sum, pairwise_sum.
destruct a as [|x a]; [congruence|].
rewrite pairwise_sum_fuel_zeros by assumption. reflexivity.
Qed.

End SumOfZeros.

(* ================================================================== *)
(** * Constant windows and empty windows                               *)
(* ================================================================== *)

(** A window of identical finite values whose computed mean is that very
    value has standard deviation [+0]. *)
Lemma np_std_constant (w : list float) (c : float) :
  w <> [] -> (Z.of_nat (length w) < 2 ^ 53)%Z ->
  Forall (fun x => x = c) w ->
  is_finite c = true ->
  np_mean w = c ->
  np_std w = 0.
Proof.
  intros Hne Hlen Hc Hfin Hmean. unfold np_std.
  change (np_sum w / count w) with (np_mean w). rewrite Hmean.
  rewrite np_sum_zeros.
  - destruct (count_shape Hne Hlen) as (m & e & Hcount).
    assert (Hq : 0 / count w = 0).
    { apply Prim2SF_inj. rewrite div_spec, Hcount. reflexivity. }
    rewrite Hq. reflexivity.
  - unfold zeros. rewrite map_map. apply Forall_map.
    eapply Forall_impl; [|exact Hc].
    intros x ->. cbv beta. rewrite sub_diag_finite by exact Hfin.
    reflexivity.
  - destruct w; [congruence|discriminate].
Qed.

(** Nothing is ever flagged against an empty window: its mean is a NaN. *)
Lemma judged_empty (th v : float) : judged th [] v = false.
Proof.
  unfold judged, z_score.
  change (np_mean []) with nan. change (np_std [] + epsilon) with nan.
  rewrite sub_nan_r. change (abs (nan / nan)) with nan.
  apply ltb_nan_r.
Qed.

(** C7, the claim as stated fails.  Three copies of [0.1 * 2^60] have the
    computed mean one unit in the last place above the value, hence a
    standard deviation of [16], not [0]; with [window_size = 6] and the
    positive threshold [0.5] the fourth sample of the constant stream is
    answered [True]. *)
Lemma constant_input_can_be_flagged :
  let c := 0x1.999999999999ap+56 in
  np_mean [c; c; c] = 0x1.999999999999bp+56 /\
  np_std [c; c; c] = 16 /\
  z_score c (np_mean [c; c; c]) (np_std [c; c; c])
    = -0x1.fffffffff241ap-1 /\
  answers 6 0.5 [c; c; c; c] = Ok [false; false; false; true].
Proof.
  cbv zeta. repeat split; vm_compute; reflexivity.
Qed.

(** C7, amended.  With [window_size = 5] and [threshold = 2.5] the constant
    sequence [1, 1, 1, 1, 1] is answered [False] five times.  More
    generally, on a window of identical finite values whose computed mean
    is exactly that value, the standard deviation is [0], the epsilon keeps
    the divisor away from zero, the z-score of the value is [0], and the
    value is not flagged under any threshold that is not negative. *)
Theorem constant_stream_stability :
  answers 5 2.5 [1; 1; 1; 1; 1] = Ok [false; false; false; false; false] /\
  forall (w : list float) (c th : float),
    w <> [] -> (Z.of_nat (length w) < 2 ^ 53)%Z ->
    Forall (fun x => x = c) w ->
    is_finite c = true ->
    np_mean w = c ->
    (th <? 0) = false ->
    np_std w = 0 /\
    np_std w + epsilon = epsilon /\
    z_score c (np_mean w) (np_std w) = 0 /\
    judged th w c = false.
Proof.
  split; [vm_compute; reflexivity|].
  intros w c th Hne Hlen Hc Hfin Hmean Hth.
  assert (Hstd : np_std w = 0) by (apply np_std_constant with c; assumption).
  unfold judged, z_score. rewrite Hstd, Hmean.
  rewrite sub_diag_finite by exact Hfin.
  change (0 + epsilon) with epsilon.
  change (abs (0 / epsilon)) with 0.
  change (0 / epsilon) with 0.
  repeat split. exact Hth.
Qed.

Lemma constant_stream_stability_witness :
  np_std [1; 1; 1] = 0 /\ judged 2.5 [1; 1; 1] 1 = false.
Proof.
  destruct constant_stream_stability as [_ H].
  destruct (H [1; 1; 1] 1 2.5) as (Hs & _ & _ & Hj).
  - discriminate.
  - vm_compute. reflexivity.
  - repeat constructor.
  - reflexivity.
  - reflexivity.
  - reflexivity.
  - split; [exact Hs|exact Hj].
Defined.

(** C10.  In a detector built with [window_size >= 2], every window on
    which a call of [is_anomaly] computes statistics holds at least
    [window_size // 2 >= 1] samples, so it is not empty.  With
    [window_size = 1] there is no warm-up: the very first call computes
    the statistics of the empty window (both are NaN, and the answer is
    [False]) before it stores its sample. *)
Theorem statistics_window_is_nonempty :
  forall (ws : Z) (th : float) (xs : list float) (v : float) bs d log,
    run ws th xs = Ok (bs, d, log) ->
    ((2 <= ws)%Z ->
       (1 <= warmup ws)%Z /\
       exists b d' log',
         is_anomaly v d = Ok (b, d', log') /\
         Forall (fun w => w <> [] /\ (warmup ws <= Z.of_nat (length w))%Z)
                log') /\
    (ws = 1%Z -> xs = [] ->
       warmup ws = 0%Z /\
       is_anomaly v d = Ok (false, state_after 1 th [v], [[]; [v]]) /\
       np_mean [] = nan /\ np_std [] = nan).
Proof.
  intros ws th xs v bs d log Hrun.
  destruct (run_len _ _ _ Hrun) as (Hws & -> & Hl).
  split.
  - intros H2.
    assert (Hw1 : (1 <= warmup ws)%Z).
    { unfold warmup. apply Z.div_le_lower_bound; lia. }
    split; [exact Hw1|].
    pose proof (warmup_le Hws) as Hwu.
    destruct (Z.ltb_spec (Z.of_nat (length xs)) (warmup ws)) as [Hc|Hc].
    + rewrite is_anomaly_warmup by assumption.
      eexists. eexists. eexists. split; [reflexivity|constructor].
    + rewrite is_anomaly_steady by assumption.
      eexists. eexists. eexists. split; [reflexivity|].
      assert (Hnonempty : forall w : list float,
                 (warmup ws <= Z.of_nat (length w))%Z ->
                 w <> [] /\ (warmup ws <= Z.of_nat (length w))%Z).
      { intros w Hw. split; [|exact Hw].
        destruct w; [simpl in Hw; lia|discriminate]. }
      unfold stats_windows. apply Forall_app. split.
      * destruct (warmup ws <? Z.of_nat (length xs))%Z; constructor;
          [|constructor].
        apply Hnonempty. rewrite lastn_length. lia.
      * constructor; [|constructor].
        apply Hnonempty. rewrite lastn_length, length_app. simpl. lia.
  - intros -> ->. split; [reflexivity|].
    rewrite is_anomaly_steady by (vm_compute; discriminate).
    change (lastn (Z.to_nat 1) []) with (@nil float).
    rewrite judged_empty. repeat split.
Qed.

Lemma statistics_window_is_nonempty_witness :
  (exists b d' log',
     is_anomaly 3 (state_after 4 2.5 [1; 2]) = Ok (b, d', log') /\
     Forall (fun w => w <> [] /\ (warmup 4 <= Z.of_nat (length w))%Z) log')
  /\
  is_anomaly 3 (state_after 1 2.5 []) =
    Ok (false, state_after 1 2.5 [3], [[]; [3]]).
Proof.
  split.
  - destruct (@statistics_window_is_nonempty 4 2.5 [1; 2] 3
                (spec_answers 4 2.5 [] [1; 2])
                (state_after 4 2.5 [1; 2])
                (spec_windows 4 [] [1; 2])) as [H _].
    + vm_compute. reflexivity.
    + destruct H as [_ H]; [lia|]. exact H.
  - destruct (@statistics_window_is_nonempty 1 2.5 [] 3
                (spec_answers 1 2.5 [] [])
                (state_after 1 2.5 [])
                (spec_windows 1 [] [])) as [_ H].
    + vm_compute. reflexivity.
    + destruct H as (_ & H & _); [reflexivity|reflexivity|]. exact H.
Defined.

(* ================================================================== *)
(** * Construction                                                     *)
(* ================================================================== *)

(** C3, the claim as stated fails.  A detector is built with
    [window_size = 0], with [threshold = 0] and with a negative threshold,
    and a simulator with [seasonal_period = 0] and with a negative one:
    every construction succeeds and stores its arguments as given. *)
Lemma construction_accepts_nonpositive_parameters :
  Detector.init 0 3 =
    Ok {| window_size := 0; threshold := 3;
          values := {| maxlen := 0; items := [] |};
          is_initialized := false; mean := None; std := None |} /\
  Detector.init 100 0 =
    Ok {| window_size := 100; threshold := 0;
          values := {| maxlen := 100; items := [] |};
          is_initialized := false; mean := None; std := None |} /\
  Detector.init 100 (-2.5) =
    Ok {| window_size := 100; threshold := -2.5;
          values := {| maxlen := 100; items := [] |};
          is_initialized := false; mean := None; std := None |} /\
  Simulator.init 0 0.125 0.5 =
    Ok {| Simulator.seasonal_period := 0; Simulator.trend_factor := 0.125;
          Simulator.noise_level := 0.5; Simulator.counter := 0 |} /\
  Simulator.init (-24) 0.125 0.5 =
    Ok {| Simulator.seasonal_period := -24; Simulator.trend_factor := 0.125;
          Simulator.noise_level := 0.5; Simulator.counter := 0 |}.
Proof.
  repeat split.
Qed.

(** C3, amended.  [AnomalyDetector.__init__] checks nothing itself: it
    fails exactly when [deque] refuses the window size as [maxlen], with
    [OverflowError] for one outside the range of a [Py_ssize_t] (below
    [-2^63] or above [2^63 - 1]) and [ValueError] for a negative one inside
    it; [window_size = 0] and every threshold are accepted and stored
    unchanged.  [DataStreamSimulator.__init__] never fails; a
    [seasonal_period] of zero shows at the first call of [get_next_value],
    as a [ZeroDivisionError]. *)
Theorem construction_checks_only_the_deque_length :
  forall (ws : Z) (th : float) (sp : Z) (tf nl : float),
    Detector.init ws th =
      (if (ws <? - 2 ^ 63)%Z then Raise OverflowError
       else if (2 ^ 63 - 1 <? ws)%Z then Raise OverflowError
       else if (ws <? 0)%Z then Raise ValueError
       else Ok {| window_size := ws; threshold := th;
                  values := {| maxlen := ws; items := [] |};
                  is_initialized := false; mean := None; std := None |}) /\
    Simulator.init sp tf nl =
      Ok {| Simulator.seasonal_period := sp; Simulator.trend_factor := tf;
            Simulator.noise_level := nl; Simulator.counter := 0 |} /\
    (forall (np_sin : float -> float) (r : Simulator.draws),
       Simulator.get_next_value np_sin
         {| Simulator.seasonal_period := 0; Simulator.trend_factor := tf;
            Simulator.noise_level := nl; Simulator.counter := 0 |} r
       = Raise ZeroDivisionError).
Proof.
  intros ws th sp tf nl. split; [|split].
  - unfold Detector.init, Deque.new, Deque.ssize_min, Deque.ssize_max.
    destruct (ws <? - 2 ^ 63)%Z; [reflexivity|].
    destruct (2 ^ 63 - 1 <? ws)%Z; [reflexivity|].
    destruct (ws <? 0)%Z; reflexivity.
  - reflexivity.
  - intros np_sin r. reflexivity.
Qed.

(* ================================================================== *)
(** * The simulator                                                    *)
(* ================================================================== *)

Import Simulator.

Section Generator.

Variable np_sin : float -> float.

(** One call, unfolded: it succeeds as soon as the counter and the period
  convert to floats, the period is not zero and the noise level is not
  negative. *)
Lemma get_next_value_ok (g : DataStreamSimulator) (r : draws) :
(0 <= counter g < 2 ^ 53)%Z ->
(0 < seasonal_period g < 2 ^ 53)%Z ->
get_sign (noise_level g) = false ->
exists c p,
  py_float_of_int (counter g) = Ok c /\ is_finite c = true /\
  py_float_of_int (seasonal_period g) = Ok p /\
  get_next_value np_sin g r =
  Ok (np_sin (2 * pi * c / p) + trend_factor g * c
      + (0 + noise_level g * gauss r) + anomaly_term r,
      {| seasonal_period := seasonal_period g;
         trend_factor := trend_factor g;
         noise_level := noise_level g;
         counter := counter g + 1 |}).
Proof.
intros Hc Hp Hn.
destruct (@py_float_of_int_small (counter g)) as (c & Ec & Fc); [lia|].
destruct (@py_float_of_int_small (seasonal_period g)) as (p & Ep & _);
  [lia|].
exists c, p. repeat split; try assumption.
unfold get_next_value, np_random_normal. rewrite Ec, Ep, Hn.
destruct (Z.eqb_spec (seasonal_period g) 0); [lia|]. reflexivity.
Qed.







End Generator.

(* ================================================================== *)
(** * Properties of the simulator                                      *)
(* ================================================================== *)






(* ================================================================== *)
(** * Further properties of the detector                               *)
(* ================================================================== *)

Lemma spec_answers_length (ws : Z) (th : float) :
  forall ys seen, length (spec_answers ws th seen ys) = length ys.
Proof.
  induction ys as [|y ys IH]; intros seen; [reflexivity|].
  cbn [spec_answers length]. now rewrite IH.
Qed.

Lemma spec_answers_nth (ws : Z) (th : float) :
  forall ys seen (i : nat),
    (i < length ys)%nat ->
    nth i (spec_answers ws th seen ys) false =
    (if (Z.of_nat (length seen + i) <? warmup ws)%Z then false
     else judged th (lastn (Z.to_nat ws) (seen ++ firstn i ys))
                 (nth i ys 0)).
Proof.
  induction ys as [|y ys IH]; intros seen i Hi; [inversion Hi|].
  destruct i as [|i].
  - cbn [spec_answers nth firstn]. rewrite Nat.add_0_r, app_nil_r.
    reflexivity.
  - cbn [spec_answers nth firstn]. rewrite IH by (simpl in Hi; lia).
    rewrite length_app. simpl length.
    replace (length seen + 1 + i)%nat with (length seen + S i)%nat by lia.
    rewrite <- app_assoc. reflexivity.
Qed.

(** X1.  A detector built with a window size that [deque] accepts never
    raises, whatever floats it is fed (NaN and infinities included): a run
    gives one answer per sample, and the answer to sample [i] (counted
    from 0) is [False] for [i < window_size // 2] and otherwise the
    z-score test of the sample against the last [window_size] samples
    before it. *)
Theorem run_answers_every_sample :
  forall (ws : Z) (th : float) (xs : list float),
    (0 <= ws <= Deque.ssize_max)%Z ->
    exists bs d log,
      run ws th xs = Ok (bs, d, log) /\
      length bs = length xs /\
      forall i : nat,
        (i < length xs)%nat ->
        nth i bs false =
        (if (Z.of_nat i <? warmup ws)%Z then false
         else (th <? abs (z_score (nth i xs 0)
                            (np_mean (lastn (Z.to_nat ws) (firstn i xs)))
                            (np_std (lastn (Z.to_nat ws) (firstn i xs)))))).
Proof.
  intros ws th xs Hr. rewrite run_ok by exact Hr.
  eexists. eexists. eexists. split; [reflexivity|].
  split; [apply spec_answers_length|].
  intros i Hi. rewrite spec_answers_nth by exact Hi. reflexivity.
Qed.

Lemma run_answers_every_sample_witness :
  exists bs d log,
    run 4 2.5 [1; nan; infinity; 2; 3] = Ok (bs, d, log) /\
    length bs = 5%nat.
Proof.
  destruct (@run_answers_every_sample 4 2.5 [1; nan; infinity; 2; 3])
    as (bs & d & log & H & Hl & _).
  - vm_compute. split; discriminate.
  - exists bs, d, log. split; [exact H|exact Hl].
Defined.

(** X2.  Past warm-up the detector keeps nothing of its history but the
    window: two runs with the same parameters, each of more than
    [window_size // 2] samples, whose last [window_size] samples agree,
    end in the same object, and so answer every continuation alike. *)
Theorem detector_forgets_older_samples :
  forall (ws : Z) (th : float) (xs ys zs : list float) bs1 d1 l1 bs2 d2 l2,
    run ws th xs = Ok (bs1, d1, l1) ->
    run ws th ys = Ok (bs2, d2, l2) ->
    (warmup ws < Z.of_nat (length xs))%Z ->
    (warmup ws < Z.of_nat (length ys))%Z ->
    lastn (Z.to_nat ws) xs = lastn (Z.to_nat ws) ys ->
    d1 = d2 /\ feed zs d1 = feed zs d2.
Proof.
  intros ws th xs ys zs bs1 d1 l1 bs2 d2 l2 H1 H2 Hx Hy Hw.
  apply run_inv in H1. destruct H1 as (_ & _ & -> & _).
  apply run_inv in H2. destruct H2 as (_ & _ & -> & _).
  assert (E : state_after ws th xs = state_after ws th ys).
  { unfold state_after. rewrite Hw.
    apply Z.ltb_lt in Hx. apply Z.ltb_lt in Hy. rewrite Hx, Hy.
    reflexivity. }
  rewrite E. split; reflexivity.
Qed.

Lemma detector_forgets_older_samples_witness :
  state_after 2 2.5 [1; 2; 3; 4] = state_after 2 2.5 [9; 3; 4].
Proof.
  destruct (@detector_forgets_older_samples 2 2.5 [1; 2; 3; 4] [9; 3; 4] []
              (spec_answers 2 2.5 [] [1; 2; 3; 4])
              (state_after 2 2.5 [1; 2; 3; 4])
              (spec_windows 2 [] [1; 2; 3; 4])
              (spec_answers 2 2.5 [] [9; 3; 4])
              (state_after 2 2.5 [9; 3; 4])
              (spec_windows 2 [] [9; 3; 4])) as [H _].
  - vm_compute. reflexivity.
  - vm_compute. reflexivity.
  - vm_compute. reflexivity.
  - vm_compute. reflexivity.
  - reflexivity.
  - exact H.
Defined.

(* ================================================================== *)
(** * Sums that hold a NaN or an infinity                              *)
(* ================================================================== *)

Section AbsorbingSums.

(** A class of floats that an addition cannot leave: once a summand is in
    it, so is the sum. *)
Variable P : float -> Prop.
Hypothesis P_add_l : forall x y, P x -> P (x + y).
Hypothesis P_add_r : forall x y, P y -> P (x + y).

Lemma accumulate_absorbed (a : list float) :
  forall res, P res -> P (accumulate res a).
Proof.
  unfold accumulate. induction a as [|x a IH]; intros res H; [exact H|].
  simpl. apply IH. apply P_add_l. exact H.
Qed.

Lemma accumulate_absorbs (a : list float) :
  forall res, Exists P a -> P (accumulate res a).
Proof.
  induction a as [|x a IH]; intros res H; inversion H; subst.
  - apply (accumulate_absorbed a). apply P_add_r. assumption.
  - unfold accumulate in *. simpl. apply IH. assumption.
Qed.

Lemma unrolled_absorbs (k : nat) :
  forall a r, (length a <= k)%nat ->
    some_acc P r \/ Exists P a ->
    some_acc P (fst (unrolled r a)) \/ Exists P (snd (unrolled r a)).
Proof.
  induction k as [|k IH]; intros a r Hlen H.
  - destruct a; [exact H|simpl in Hlen; lia].
  - do 8 (destruct a as [|? a]; [exact H|]).
    cbn [unrolled]. apply IH; [simpl in Hlen; lia|].
    destruct H as [H|H].
    + left. unfold some_acc in *. cbn [r0 r1 r2 r3 r4 r5 r6 r7].
      intuition auto.
    + repeat match goal with
             | H : Exists _ (_ :: _) |- _ => inversion H; clear H; subst
             end;
        try (left; unfold some_acc; cbn [r0 r1 r2 r3 r4 r5 r6 r7];
             intuition auto; fail).
      right. assumption.
Qed.

Lemma block_sum_absorbs (a : list float) :
  Exists P a -> P (block_sum a).
Proof.
  intros H. unfold block_sum.
  do 8 (destruct a as [|? a]; [apply accumulate_absorbs; exact H|]).
  match goal with
  | |- context [unrolled ?r a] =>
      pose proof (@unrolled_absorbs (length a) a r (le_n _)) as Hu;
      destruct (unrolled r a) as [r' t]
  end.
  cbn [fst snd] in Hu.
  destruct Hu as [Hr|Ht].
  - repeat match goal with
           | H : Exists _ (_ :: _) |- _ => inversion H; clear H; subst
           end;
      try (left; unfold some_acc; cbn [r0 r1 r2 r3 r4 r5 r6 r7];
           intuition auto; fail).
    right. assumption.
  - apply accumulate_absorbed. unfold some_acc in Hr.
    intuition auto.
  - apply accumulate_absorbs. exact Ht.
Qed.

Lemma pairwise_sum_fuel_absorbs (fuel : nat) :
  forall a, Exists P a -> P (pairwise_sum_fuel fuel a).
Proof.
  induction fuel as [|fuel IH]; intros a H; cbn [pairwise_sum_fuel].
  - destruct (length a <? 8)%nat; [apply accumulate_absorbs; exact H|].
    destruct (length a <=? 128)%nat; apply block_sum_absorbs; exact H.
  - destruct (length a <? 8)%nat; [apply accumulate_absorbs; exact H|].
    destruct (length a <=? 128)%nat; [apply block_sum_absorbs; exact H|].
    set (k := (length a / 2 - (length a / 2) mod 8)%nat).
    rewrite <- (firstn_skipn k a) in H. apply Exists_app in H.
    destruct H as [H|H].
    + apply P_add_l. apply IH. exact H.
    + apply P_add_r. apply IH. exact H.
Qed.

Lemma np_sum_absorbs (a : list float) : Exists P a -> P (np_sum a).
Proof.
  intros H. unfold np_sum. destruct a; [inversion H|].
  apply P_add_r. apply pairwise_sum_fuel_absorbs. exact H.
Qed.

End AbsorbingSums.

(* ================================================================== *)
(** * A window that holds a NaN or an infinity                         *)
(* ================================================================== *)

Section NonFinite.

Local Open Scope float_scope.

Lemma Prim2SF_neg_infinity : Prim2SF neg_infinity = S754_infinity true.
Proof. reflexivity. Qed.

Lemma not_finite_cases (x : float) :
  not_finite x -> x = nan \/ x = infinity \/ x = neg_infinity.
Proof.
  unfold not_finite. intros H.
  destruct (Prim2SF x) as [s|[|]| |s m e] eqn:Hx.
  - rewrite is_finite_of_shape in H; [discriminate|]. left. eauto.
  - right. right. apply Prim2SF_inj. rewrite Hx. reflexivity.
  - right. left. apply Prim2SF_inj. rewrite Hx. reflexivity.
  - left. apply Prim2SF_inj. rewrite Hx. reflexivity.
  - rewrite is_finite_of_shape in H; [discriminate|]. right. eauto.
Qed.

Lemma add_nan_l (y : float) : nan + y = nan.
Proof.
  apply Prim2SF_inj. rewrite add_spec, Prim2SF_nan. reflexivity.
Qed.

Lemma add_nan_r (x : float) : x + nan = nan.
Proof.
  apply Prim2SF_inj. rewrite add_spec, Prim2SF_nan.
  unfold SF64add, SFadd. destruct (Prim2SF x); reflexivity.
Qed.

Lemma sub_nan_l (y : float) : nan - y = nan.
Proof.
  apply Prim2SF_inj. rewrite sub_spec, Prim2SF_nan. reflexivity.
Qed.

Lemma div_nan_l (y : float) : nan / y = nan.
Proof.
  apply Prim2SF_inj. rewrite div_spec, Prim2SF_nan. reflexivity.
Qed.

Lemma add_infinity_l (y : float) : pinf_or_nan (infinity + y).
Proof.
  unfold pinf_or_nan.
  destruct (Prim2SF y) as [s|[|]| |s m e] eqn:Hy;
    [left|right|left|right|left];
    apply Prim2SF_inj; rewrite add_spec, Hy; reflexivity.
Qed.

Lemma add_neg_infinity_l (y : float) : ninf_or_nan (neg_infinity + y).
Proof.
  unfold ninf_or_nan.
  destruct (Prim2SF y) as [s|[|]| |s m e] eqn:Hy;
    [left|left|right|right|left];
    apply Prim2SF_inj; rewrite add_spec, Hy; reflexivity.
Qed.

Lemma add_neg_infinity_r (x : float) : ninf_or_nan (x + neg_infinity).
Proof.
  unfold ninf_or_nan.
  destruct (Prim2SF x) as [s|[|]| |s m e] eqn:Hx;
    [left|left|right|right|left];
    apply Prim2SF_inj; rewrite add_spec, Hx; reflexivity.
Qed.

Lemma pinf_or_nan_add_l (x y : float) : pinf_or_nan x -> pinf_or_nan (x + y).
Proof.
  intros [-> | ->]; [apply add_infinity_l|right; apply add_nan_l].
Qed.

Lemma pinf_or_nan_add_r (x y : float) : pinf_or_nan y -> pinf_or_nan (x + y).
Proof.
  intros [-> | ->]; [apply add_infinity_r|right; apply add_nan_r].
Qed.

Lemma ninf_or_nan_add_l (x y : float) : ninf_or_nan x -> ninf_or_nan (x + y).
Proof.
  intros [-> | ->]; [apply add_neg_infinity_l|right; apply add_nan_l].
Qed.

Lemma ninf_or_nan_add_r (x y : float) : ninf_or_nan y -> ninf_or_nan (x + y).
Proof.
  intros [-> | ->]; [apply add_neg_infinity_r|right; apply add_nan_r].
Qed.

(** The count of an array is never negative: its float has the sign [+],
    or is a NaN. *)
Lemma count_sign (a : list float) :
  (exists m e, Prim2SF (count a) = S754_finite false m e) \/
  Prim2SF (count a) = S754_zero false \/
  Prim2SF (count a) = S754_infinity false \/
  Prim2SF (count a) = S754_nan.
Proof.
  unfold count. rewrite of_uint63_spec.
  pose proof (Uint63.to_Z_bounded
                (Uint63.of_Z (Z.of_nat (length a)))) as Hb.
  destruct (Uint63.to_Z (Uint63.of_Z (Z.of_nat (length a))))
    as [|p|p]; [right; left; reflexivity| |lia].
  unfold binary_normalize, binary_round, binary_round_aux.
  destruct (shl_align _ _ _) as [mz ez].
  destruct (shr_fexp _ _ _ _ _) as [mrs1 e1].
  destruct (shr_fexp _ _ _ _ _) as [mrs2 e2].
  destruct (shr_m mrs2) as [|q|q].
  - right. left. reflexivity.
  - destruct (Z.leb e2 (emax - prec)).
    + left. eauto.
    + right. right. left. reflexivity.
  - right. right. right. reflexivity.
Qed.

Lemma pinf_or_nan_mean (s : float) (a : list float) :
  pinf_or_nan s -> pinf_or_nan (s / count a).
Proof.
  unfold pinf_or_nan. intros [-> | ->]; [|right; apply div_nan_l].
  destruct (count_sign a) as [(m & e & H)|[H|[H|H]]];
    [left|left|right|right];
    apply Prim2SF_inj; rewrite div_spec, H; reflexivity.
Qed.

Lemma ninf_or_nan_mean (s : float) (a : list float) :
  ninf_or_nan s -> ninf_or_nan (s / count a).
Proof.
  unfold ninf_or_nan. intros [-> | ->]; [|right; apply div_nan_l].
  destruct (count_sign a) as [(m & e & H)|[H|[H|H]]];
    [left|left|right|right];
    apply Prim2SF_inj; rewrite div_spec, H; reflexivity.
Qed.

(** A window that holds a NaN or an infinity has the standard deviation
    NaN. *)
Lemma np_std_not_finite (w : list float) :
  Exists not_finite w -> np_std w = nan.
Proof.
  intros H. unfold np_std.
  set (m := np_sum w / count w).
  assert (Hsq : Exists (fun x => x = nan)
                  (map (fun d => d * d) (map (fun v => v - m) w))).
  { rewrite map_map. apply Exists_exists in H. destruct H as (x & Hin & Hx).
    apply Exists_exists. exists ((x - m) * (x - m)). split.
    - apply in_map_iff. exists x. split; [reflexivity|exact Hin].
    - assert (Hd : x - m = nan).
      { destruct (not_finite_cases Hx) as [-> | [-> | ->]].
        - apply sub_nan_l.
        - assert (Hm : pinf_or_nan m).
          { apply pinf_or_nan_mean.
            apply (np_sum_absorbs pinf_or_nan_add_l pinf_or_nan_add_r).
            apply Exists_exists. exists infinity.
            split; [exact Hin|left; reflexivity]. }
          destruct Hm as [-> | ->]; reflexivity.
        - assert (Hm : ninf_or_nan m).
          { apply ninf_or_nan_mean.
            apply (np_sum_absorbs ninf_or_nan_add_l ninf_or_nan_add_r).
            apply Exists_exists. exists neg_infinity.
            split; [exact Hin|left; reflexivity]. }
          destruct Hm as [-> | ->]; reflexivity. }
      rewrite Hd. reflexivity. }
  assert (Hs : np_sum (map (fun d => d * d) (map (fun v => v - m) w)) = nan).
  { apply (np_sum_absorbs (P := fun x => x = nan)).
    - intros x y ->. apply add_nan_l.
    - intros x y ->. apply add_nan_r.
    - exact Hsq. }
  rewrite Hs, div_nan_l. reflexivity.
Qed.

(** Nothing is flagged against such a window. *)
Lemma judged_not_finite (th : float) (w : list float) (v : float) :
  Exists not_finite w -> judged th w v = false.
Proof.
  intros H. unfold judged, z_score. rewrite (np_std_not_finite H).
  change (nan + epsilon) with nan. rewrite div_nan_r.
  change (abs nan) with nan. apply ltb_nan_r.
Qed.

End NonFinite.

(** X3.  While the window holds a NaN or an infinity, [is_anomaly] answers
    [False] whatever the value judged: the standard deviation of such a
    window is NaN, so is the z-score, and no comparison with a NaN
    holds. *)
Theorem non_finite_sample_silences_detector :
  forall (ws : Z) (th : float) (xs : list float) (v : float) bs d log,
    run ws th xs = Ok (bs, d, log) ->
    Exists (fun x => is_finite x = false) (window d) ->
    np_std (window d) = nan /\
    exists d' log', is_anomaly v d = Ok (false, d', log').
Proof.
  intros ws th xs v bs d log Hrun Hex.
  split; [apply np_std_not_finite; exact Hex|].
  destruct (run_len _ _ _ Hrun) as (Hws & -> & _).
  destruct (Z.ltb_spec (Z.of_nat (length xs)) (warmup ws)) as [Hc|Hc].
  - rewrite is_anomaly_warmup by assumption. eauto.
  - rewrite is_anomaly_steady by assumption.
    unfold window, state_after in Hex. cbn [values items] in Hex.
    rewrite (judged_not_finite th v Hex). eauto.
Qed.

Lemma non_finite_sample_silences_detector_witness :
  exists d' log',
    is_anomaly 1000 (state_after 4 2.5 [1; 1; infinity; 1]) =
    Ok (false, d', log').
Proof.
  destruct (@non_finite_sample_silences_detector 4 2.5
              [1; 1; infinity; 1] 1000
              (spec_answers 4 2.5 [] [1; 1; infinity; 1])
              (state_after 4 2.5 [1; 1; infinity; 1])
              (spec_windows 4 [] [1; 1; infinity; 1]))
    as (_ & d' & log' & H).
  - vm_compute. reflexivity.
  - vm_compute. right. right. left. reflexivity.
  - exists d', log'. exact H.
Defined.

Lemma In_lastn_recent {A : Type} (n : nat) (l1 l2 : list A) (x : A) :
  (length l2 < n)%nat -> In x (lastn n (l1 ++ x :: l2)).
Proof.
  intros H. unfold lastn. rewrite length_app. cbn [length].
  rewrite skipn_app.
  apply in_or_app. right.
  replace (length l1 + S (length l2) - n - length l1)%nat with 0%nat by lia.
  left. reflexivity.
Qed.

(** X4.  A NaN or an infinity fed to the detector stays in the window for
    the next [window_size] calls: each of the [window_size] samples that
    follow it is answered [False], whatever its value. *)
Theorem silence_lasts_a_window :
  forall (ws : Z) (th : float) (xs ys : list float) (x : float) (j : nat)
         bs d log,
    run ws th (xs ++ x :: ys) = Ok (bs, d, log) ->
    is_finite x = false ->
    (j < length ys)%nat -> (Z.of_nat j < ws)%Z ->
    nth (length xs + 1 + j) bs true = false.
Proof.
  intros ws th xs ys x j bs d log Hrun Hx Hj Hjw.
  apply run_inv in Hrun. destruct Hrun as (Hr & -> & _ & _).
  assert (E : forall b, nth (length xs + 1 + j)
                          (spec_answers ws th [] (xs ++ x :: ys)) b =
                        nth (length xs + 1 + j)
                          (spec_answers ws th [] (xs ++ x :: ys)) false).
  { intros b. apply nth_indep. rewrite spec_answers_length, length_app.
    simpl. lia. }
  rewrite E. rewrite spec_answers_nth
    by (rewrite length_app; simpl; lia).
  destruct (_ <? _)%Z; [reflexivity|].
  apply judged_not_finite. apply Exists_exists. exists x.
  split; [|exact Hx]. cbn [app].
  replace (length xs + 1 + j)%nat with (length xs + S j)%nat by lia.
  rewrite firstn_app_2. cbn [firstn].
  apply In_lastn_recent. rewrite length_firstn. lia.
Qed.

Lemma silence_lasts_a_window_witness :
  nth 4 (spec_answers 3 2.5 [] [1; 2; 3; nan; 1000; 5]) true = false.
Proof.
  apply (@silence_lasts_a_window 3 2.5 [1; 2; 3] [1000; 5] nan 0
           (spec_answers 3 2.5 [] [1; 2; 3; nan; 1000; 5])
           (state_after 3 2.5 [1; 2; 3; nan; 1000; 5])
           (spec_windows 3 [] [1; 2; 3; nan; 1000; 5])).
  - vm_compute. reflexivity.
  - reflexivity.
  - simpl. lia.
  - lia.
Defined.


(* ================================================================== *)
(** * Further properties of the simulator                              *)
(* ================================================================== *)

(** X6.  With a counter and a period below [2^53] in magnitude, a call of
    [get_next_value] fails in exactly two ways, decided in this order: a
    [seasonal_period] of zero gives [ZeroDivisionError]; otherwise a
    [noise_level] whose sign is negative gives [ValueError]; otherwise the
    call returns and adds one to the counter.  In particular a negative
    [seasonal_period] is served like a positive one. *)
Theorem get_next_value_error_cases :
  forall (np_sin : float -> float) (g : DataStreamSimulator) (r : draws),
    (- 2 ^ 53 < counter g < 2 ^ 53)%Z ->
    (- 2 ^ 53 < seasonal_period g < 2 ^ 53)%Z ->
    (seasonal_period g = 0%Z ->
       get_next_value np_sin g r = Raise ZeroDivisionError) /\
    (seasonal_period g <> 0%Z -> get_sign (noise_level g) = true ->
       get_next_value np_sin g r = Raise ValueError) /\
    (seasonal_period g <> 0%Z -> get_sign (noise_level g) = false ->
       exists v,
         get_next_value np_sin g r =
         Ok (v, {| seasonal_period := seasonal_period g;
                   trend_factor := trend_factor g;
                   noise_level := noise_level g;
                   counter := counter g + 1 |})).
Proof.
  intros np_sin g r Hc Hp.
  destruct (py_float_of_int_small Hc) as (c & Ec & _).
  destruct (py_float_of_int_small Hp) as (p & Ep & _).
  unfold get_next_value, np_random_normal. rewrite Ec, Ep.
  repeat split.
  - intros ->. reflexivity.
  - intros Hne Hs. destruct (Z.eqb_spec (seasonal_period g) 0); [lia|].
    rewrite Hs. reflexivity.
  - intros Hne Hs. destruct (Z.eqb_spec (seasonal_period g) 0); [lia|].
    rewrite Hs. eexists. reflexivity.
Qed.

Lemma get_next_value_error_cases_witness :
  get_next_value sin_series (mkSimulator 0 0.125 (-0.5) 3)
    (mkDraws 0.25 0.5 true 0.5) = Raise ZeroDivisionError /\
  get_next_value sin_series (mkSimulator (-24) 0.125 (-0.5) 3)
    (mkDraws 0.25 0.5 true 0.5) = Raise ValueError /\
  exists v,
    get_next_value sin_series (mkSimulator (-24) 0.125 0.5 3)
      (mkDraws 0.25 0.5 true 0.5) =
    Ok (v, mkSimulator (-24) 0.125 0.5 4).
Proof.
  split; [|split].
  - apply (@get_next_value_error_cases sin_series
             (mkSimulator 0 0.125 (-0.5) 3) (mkDraws 0.25 0.5 true 0.5));
      vm_compute; try (split; reflexivity); reflexivity.
  - apply (@get_next_value_error_cases sin_series
             (mkSimulator (-24) 0.125 (-0.5) 3) (mkDraws 0.25 0.5 true 0.5));
      vm_compute; try (split; reflexivity); try reflexivity; discriminate.
  - apply (@get_next_value_error_cases sin_series
             (mkSimulator (-24) 0.125 0.5 3) (mkDraws 0.25 0.5 true 0.5));
      vm_compute; try (split; reflexivity); try reflexivity; discriminate.
Defined.

(* ================================================================== *)
(** * The visualizer's data                                            *)
(* ================================================================== *)

Section VisualizerData.

Variable mp : Z.
Hypothesis mp_nonneg : (0 <= mp)%Z.

Lemma collections_append_lastn {A : Type} (l : list A) (x : A) :
  Collections.append (Collections.mkDeque mp (lastn (Z.to_nat mp) l)) x =
  Collections.mkDeque mp (lastn (Z.to_nat mp) (l ++ [x])).
Proof.
  unfold Collections.append. cbn [Collections.maxlen Collections.items].
  f_equal. rewrite lastn_snoc. cbv zeta.
  rewrite Z2Nat.id by exact mp_nonneg. reflexivity.
Qed.

Lemma store_viz_after (es : list sample) (t : Z) (x : float) (f : bool) :
  Visualizer.store (viz_after mp es) t x f = viz_after mp (es ++ [(t, x, f)]).
Proof.
  unfold Visualizer.store, viz_after.
  cbn [Visualizer.max_points Visualizer.timestamps Visualizer.values
       Visualizer.anomalies_x Visualizer.anomalies_y].
  rewrite !collections_append_lastn, filter_app, !map_app.
  cbn [filter sample_flag snd map sample_time sample_value fst].
  destruct f; rewrite ?app_nil_r; reflexivity.
Qed.

Lemma stored_viz_after (es' : list sample) :
  forall es, stored (viz_after mp es) es' = viz_after mp (es ++ es').
Proof.
  induction es' as [|[[t x] f] es' IH]; intros es.
  - simpl. now rewrite app_nil_r.
  - unfold stored in *. cbn [fold_left sample_time sample_value sample_flag
                              fst snd].
    rewrite store_viz_after, IH, <- app_assoc. reflexivity.
Qed.

Lemma visualizer_init_ok :
  (mp <= Deque.ssize_max)%Z -> Visualizer.init mp = Ok (viz_after mp []).
Proof.
  intros H. unfold Visualizer.init, Collections.new, Deque.ssize_min.
  destruct (Z.ltb_spec mp (- 2 ^ 63)); [lia|].
  destruct (Z.ltb_spec Deque.ssize_max mp); [lia|].
  destruct (Z.ltb_spec mp 0); [lia|]. cbn [orb].
  unfold viz_after. cbn [filter map]. rewrite !lastn_nil. reflexivity.
Qed.

Lemma combine_lastn {A B : Type} (n : nat) (l1 : list A) (l2 : list B) :
  length l1 = length l2 ->
  combine (lastn n l1) (lastn n l2) = lastn n (combine l1 l2).
Proof.
  intros H. unfold lastn. rewrite length_combine, <- H, Nat.min_id.
  generalize (length l1 - n)%nat as k. clear H.
  intros k. revert l1 l2.
  induction k as [|k IH]; intros l1 l2; [reflexivity|].
  destruct l1 as [|a l1]; [reflexivity|].
  destruct l2 as [|b l2].
  - cbn [skipn combine]. destruct (skipn k l1); reflexivity.
  - cbn [skipn combine]. apply IH.
Qed.

End VisualizerData.

Lemma visualizer_init_inv (mp : Z) (v0 : Visualizer.RealTimeVisualizer) :
  Visualizer.init mp = Ok v0 ->
  (0 <= mp <= Deque.ssize_max)%Z /\ v0 = viz_after mp [].
Proof.
  intros H.
  assert (Hr : (0 <= mp <= Deque.ssize_max)%Z).
  { unfold Visualizer.init, Collections.new in H.
    destruct (Z.ltb_spec mp Deque.ssize_min); [discriminate|].
    destruct (Z.ltb_spec Deque.ssize_max mp); [discriminate|].
    destruct (Z.ltb_spec mp 0); [discriminate|]. lia. }
  split; [exact Hr|].
  rewrite visualizer_init_ok in H by lia. congruence.
Qed.

(** X7.  A visualizer keeps, of the samples given to [update], the last
    [max_points] timestamps and values, and of the samples marked as
    anomalies the last [max_points] ones, whatever the plotting library
    does: the two line lists have the same length, and the marker lists
    stay aligned, the i-th x with the i-th y of the same sample. *)
Theorem visualizer_keeps_last_samples :
  forall (mp : Z) (es : list sample) (v0 : Visualizer.RealTimeVisualizer),
    Visualizer.init mp = Ok v0 ->
    let v := stored v0 es in
    let n := Z.to_nat mp in
    let marked := filter sample_flag es in
    Collections.items (Visualizer.timestamps v)
      = lastn n (map sample_time es) /\
    Collections.items (Visualizer.values v)
      = lastn n (map sample_value es) /\
    combine (Collections.items (Visualizer.anomalies_x v))
            (Collections.items (Visualizer.anomalies_y v))
      = lastn n (map fst marked) /\
    length (Collections.items (Visualizer.anomalies_x v))
      = length (Collections.items (Visualizer.anomalies_y v)) /\
    length (Collections.items (Visualizer.timestamps v))
      = length (Collections.items (Visualizer.values v)) /\
    (Collections.len (Visualizer.values v) <= mp)%Z /\
    (Collections.len (Visualizer.anomalies_y v) <= mp)%Z.
Proof.
  intros mp es v0 Hinit. cbv zeta.
  apply visualizer_init_inv in Hinit. destruct Hinit as [Hr ->].
  rewrite stored_viz_after by lia. cbn [app].
  unfold viz_after, Collections.len.
  cbn [Visualizer.timestamps Visualizer.values Visualizer.anomalies_x
       Visualizer.anomalies_y Collections.items].
  repeat split.
  - rewrite combine_lastn by (now rewrite !length_map).
    f_equal. induction (filter sample_flag es) as [|[[t x] f] l IH];
      [reflexivity|]. cbn [map combine sample_time sample_value fst].
    now rewrite IH.
  - now rewrite !lastn_length, !length_map.
  - now rewrite !lastn_length, !length_map.
  - rewrite lastn_length. lia.
  - rewrite lastn_length. lia.
Qed.

Lemma visualizer_keeps_last_samples_witness :
  combine
    (Collections.items (Visualizer.anomalies_x
       (stored (viz_after 2 [])
          [(1%Z, 5, true); (2%Z, 1, false); (3%Z, 7, true); (4%Z, 9, true)])))
    (Collections.items (Visualizer.anomalies_y
       (stored (viz_after 2 [])
          [(1%Z, 5, true); (2%Z, 1, false); (3%Z, 7, true); (4%Z, 9, true)])))
  = [(3%Z, 7); (4%Z, 9)].
Proof.
  destruct (@visualizer_keeps_last_samples 2
              [(1%Z, 5, true); (2%Z, 1, false); (3%Z, 7, true);
               (4%Z, 9, true)]
              (viz_after 2 []))
    as (_ & _ & H & _).
  - reflexivity.
  - rewrite H. reflexivity.
Defined.

(** What [redraw] does on an object whose marker lists are aligned: it
    raises only what a setter of the plotting library raised, and
    otherwise returns whether the redraw went through, the x-limits
    set. *)
Lemma redraw_cases (v : Visualizer.RealTimeVisualizer) (t : Z)
    (bk : Visualizer.backend) :
  length (Collections.items (Visualizer.anomalies_x v))
    = length (Collections.items (Visualizer.anomalies_y v)) ->
  match Visualizer.redraw v t bk with
  | (Raise e, calls) =>
      exists c, In c calls /\ bk c = Some e /\
                c <> Visualizer.canvas_draw /\
                c <> Visualizer.canvas_flush_events
  | (Ok b, calls) =>
      b = redraws bk /\
      In (Visualizer.ax_set_xlim
            (Z.max 0 (t - Visualizer.max_points v)) (t + 5)) calls
  end.
Proof.
  intros Hal.
  unfold Visualizer.redraw, Visualizer.bind, Visualizer.invoke,
    Visualizer.lift, Visualizer.try_except, Visualizer.ret,
    Visualizer.np_c_, redraws, Collections.len.
  rewrite Hal, Nat.eqb_refl.
  destruct (Collections.items (Visualizer.values v)) as [|x0 xs];
    cbn [length Z.of_nat Z.ltb Z.compare Visualizer.py_min Visualizer.py_max];
    try destruct (Visualizer._calculate_y_limits _ _) as [lo hi];
    repeat match goal with
           | |- context [bk ?c] => destruct (bk c) eqn:?
           end;
    cbn [app In];
    try (split; [reflexivity|tauto]);
    try (eexists; split; [|split; [eassumption|split; discriminate]];
         tauto).
Qed.

(** X8.  On a visualizer reached by [update] calls, [update] stores the
    sample before anything else and raises nothing of its own (the marker
    lists always fit [np.c_], and [min] and [max] are only taken of a
    non-empty window): an exception it raises was raised by a setter of
    the plotting library, and otherwise it returns [True] exactly when
    both calls of the redraw went through, in which case the x-limits
    [max(0, timestamp - max_points)] and [timestamp + 5] were set. *)
Theorem update_raises_only_what_the_backend_raises :
  forall (mp : Z) (es : list sample) (v0 : Visualizer.RealTimeVisualizer)
         (bk : Visualizer.backend) (t : Z) (x : float) (f : bool),
    Visualizer.init mp = Ok v0 ->
    let '(r, calls, v') := Visualizer.update bk (stored v0 es) t x f in
    v' = stored v0 (es ++ [(t, x, f)]) /\
    match r with
    | Raise e =>
        exists c, In c calls /\ bk c = Some e /\
                  c <> Visualizer.canvas_draw /\
                  c <> Visualizer.canvas_flush_events
    | Ok b =>
        b = redraws bk /\
        In (Visualizer.ax_set_xlim (Z.max 0 (t - mp)) (t + 5)) calls
    end.
Proof.
  intros mp es v0 bk t x f Hinit.
  apply visualizer_init_inv in Hinit. destruct Hinit as [Hr ->].
  rewrite !stored_viz_after by lia. cbn [app].
  unfold Visualizer.update. rewrite store_viz_after by lia.
  pose proof (@redraw_cases (viz_after mp (es ++ [(t, x, f)])) t bk) as H.
  destruct (Visualizer.redraw _ _ _) as [r calls].
  split; [reflexivity|]. apply H.
  unfold viz_after.
  cbn [Visualizer.anomalies_x Visualizer.anomalies_y Collections.items].
  now rewrite !lastn_length, !length_map.
Qed.

Lemma update_raises_only_what_the_backend_raises_witness :
  fst (fst (Visualizer.update (fun _ => None) (viz_after 2 []) 7 3.5 true))
  = Ok true.
Proof.
  pose proof (@update_raises_only_what_the_backend_raises 2 []
                (viz_after 2 []) (fun _ => None) 7 3.5 true eq_refl) as H.
  destruct (Visualizer.update (fun _ => None) (stored (viz_after 2 []) [])
              7 3.5 true) as [[r calls] v'] eqn:E.
  destruct H as [_ H].
  change (stored (viz_after 2 []) []) with (viz_after 2 []) in E.
  rewrite E. cbn [fst].
  destruct r as [b|e].
  - destruct H as [-> _]. reflexivity.
  - destruct H as (c & _ & Hc & _). discriminate Hc.
Defined.

(* ================================================================== *)
(** * The loop of the system                                           *)
(* ================================================================== *)

(** One call of [is_anomaly] on a reachable detector, warm-up or not. *)
Lemma is_anomaly_state_after (ws : Z) (th : float) (xs : list float)
    (v : float) :
  (0 <= ws)%Z ->
  exists log,
    is_anomaly v (state_after ws th xs) =
    Ok ((if (Z.of_nat (length xs) <? warmup ws)%Z then false
         else judged th (lastn (Z.to_nat ws) xs) v),
        state_after ws th (xs ++ [v]), log).
Proof.
  intros Hws.
  destruct (Z.ltb_spec (Z.of_nat (length xs)) (warmup ws)) as [Hc|Hc].
  - rewrite is_anomaly_warmup by assumption. eauto.
  - rewrite is_anomaly_steady by assumption. eauto.
Qed.

Lemma samples_from_cons (k : Z) (v : float) (vs : list float) (b : bool)
    (bs : list bool) :
  samples_from k (v :: vs) (b :: bs) =
  ((k + 1)%Z, v, b) :: samples_from (k + 1) vs bs.
Proof.
  unfold samples_from. cbn [length seq map combine].
  rewrite Z.add_0_r. f_equal. f_equal. f_equal.
  rewrite <- seq_shift, map_map.
  apply map_ext. intros i. lia.
Qed.

Section SystemLoop.

Variable np_sin : float -> float.

(** The loop from any state it can be in: what it showed is the stream of
    the values generated, each with the detector's answer and the
    counter after its generation; the components end where the stream
    left them; and an exception that ended it came from a setter of the
    plotting library. *)
Lemma run_from (turns : list System.turn) :
  forall (xs : list float) (es : list sample),
    (Z.of_nat (length xs) + Z.of_nat (length turns) <= 2 ^ 53)%Z ->
    let o := System.run np_sin (system_after xs es) turns in
    exists vs,
      (length vs <= length turns)%nat /\
      generate np_sin (System.simulator (system_after xs es))
        (map System.turn_draws (firstn (length vs) turns)) =
      Ok (vs, System.simulator (system_after (xs ++ vs) es)) /\
      System.shown o =
        samples_from (Z.of_nat (length xs)) vs (spec_answers 50 2.5 xs vs) /\
      System.detector (System.final o) = state_after 50 2.5 (xs ++ vs) /\
      System.simulator (System.final o)
        = System.simulator (system_after (xs ++ vs) es) /\
      System.visualizer (System.final o)
        = viz_after 200 (es ++ System.shown o) /\
      (forall e, System.ended o = System.Failed e ->
         exists t c, In t turns /\ System.turn_backend t c = Some e /\
                     c <> Visualizer.canvas_draw /\
                     c <> Visualizer.canvas_flush_events) /\
      (System.ended o = System.WindowClosed ->
         exists t, In t turns /\ redraws (System.turn_backend t) = false) /\
      (System.ended o = System.Running -> length vs = length turns).
Proof.
  induction turns as [|t turns IH]; intros xs es Hlen; cbv zeta.
  - exists []. cbn [System.run System.shown System.final System.ended
                    length firstn map generate].
    rewrite !app_nil_r.
    repeat split; try reflexivity; try discriminate; lia.
  - cbn [System.run]. cbn [length] in Hlen.
    destruct (System.signalled t).
    { exists []. cbn. rewrite !app_nil_r.
      repeat split; try reflexivity; try discriminate; lia. }
    cbn [system_after System.running negb System.simulator System.detector
         System.visualizer].
    destruct (@get_next_value_ok np_sin
                (mkSimulator 24 0x1.999999999999ap-4 0x1.3333333333333p-2
                   (Z.of_nat (length xs))) (System.turn_draws t))
      as (c & p & _ & _ & _ & Hstep);
      cbn [counter seasonal_period noise_level]; try lia; [reflexivity|].
    rewrite Hstep.
    cbn [counter seasonal_period noise_level trend_factor].
    set (value := (_ + _ + _ + _)%float) in *.
    destruct (@is_anomaly_state_after 50 2.5 xs value) as (log & Hcall);
      [lia|].
    rewrite Hcall.
    set (b := if (Z.of_nat (length xs) <? warmup 50)%Z then false
              else judged 2.5 (lastn (Z.to_nat 50) xs) value) in *.
    unfold Visualizer.update. rewrite store_viz_after by lia.
    pose proof (@redraw_cases
                  (viz_after 200
                     (es ++ [((Z.of_nat (length xs) + 1)%Z, value, b)]))
                  (Z.of_nat (length xs) + 1) (System.turn_backend t)) as Hd.
    destruct (Visualizer.redraw _ _ _) as [r calls].
    assert (Hal : length (Collections.items (Visualizer.anomalies_x
                    (viz_after 200
                       (es ++ [((Z.of_nat (length xs) + 1)%Z, value, b)]))))
                = length (Collections.items (Visualizer.anomalies_y
                    (viz_after 200
                       (es ++ [((Z.of_nat (length xs) + 1)%Z, value, b)]))))).
    { unfold viz_after.
      cbn [Visualizer.anomalies_x Visualizer.anomalies_y Collections.items].
      now rewrite !lastn_length, !length_map. }
    specialize (Hd Hal). clear Hal.
    assert (Hgen1 :
      generate np_sin
        (mkSimulator 24 0x1.999999999999ap-4 0x1.3333333333333p-2
           (Z.of_nat (length xs)))
        (map System.turn_draws (firstn 1 (t :: turns))) =
      Ok ([value],
          mkSimulator 24 0x1.999999999999ap-4 0x1.3333333333333p-2
            (Z.of_nat (length (xs ++ [value]))))).
    { cbn [firstn map generate]. rewrite Hstep.
      cbn [counter seasonal_period noise_level trend_factor].
      rewrite length_app. cbn [length].
      replace (Z.of_nat (length xs + 1)) with (Z.of_nat (length xs) + 1)%Z
        by lia.
      reflexivity. }
    assert (Hshown1 :
      samples_from (Z.of_nat (length xs)) [value]
        (spec_answers 50 2.5 xs [value]) =
      [((Z.of_nat (length xs) + 1)%Z, value, b)]).
    { cbn [spec_answers]. rewrite samples_from_cons. reflexivity. }
    destruct r as [[|]|e].
    + (* the redraw went through: the loop goes on *)
      assert (Hk : Z.of_nat (length (xs ++ [value]))
                   = (Z.of_nat (length xs) + 1)%Z)
        by (rewrite length_app; simpl; lia).
      set (es' := es ++ [((Z.of_nat (length xs) + 1)%Z, value, b)]).
      rewrite <- Hk.
      change (System.mkSystem true (state_after 50 2.5 (xs ++ [value]))
                (mkSimulator 24 0x1.999999999999ap-4 0x1.3333333333333p-2
                   (Z.of_nat (length (xs ++ [value]))))
                (viz_after 200 es'))
        with (system_after (xs ++ [value]) es').
      specialize (IH (xs ++ [value]) es'). cbv zeta in IH.
      destruct IH as (vs & Hn & Hgen & Hshown & Hdet & Hsim & Hviz & Hfail
                      & Hclosed & Hrun).
      { rewrite Hk. lia. }
      exists (value :: vs).
      cbn [System.shown System.final System.ended length firstn map].
      rewrite <- !app_assoc in *. cbn [app] in *.
      split; [lia|]. split.
      { cbn [generate]. rewrite Hstep.
        cbn [counter seasonal_period noise_level trend_factor].
        cbn [system_after System.simulator] in Hgen.
        rewrite <- Hk. rewrite Hgen. reflexivity. }
      split.
      { rewrite Hshown. cbn [spec_answers]. rewrite samples_from_cons.
        fold b. rewrite Hk. reflexivity. }
      split; [exact Hdet|]. split; [exact Hsim|]. split.
      { rewrite Hviz. unfold es'. rewrite <- app_assoc. rewrite Hk.
        reflexivity. }
      split.
      { intros e He. destruct (Hfail e He) as (t' & c' & Hin & Hc').
        exists t', c'. split; [right; exact Hin|exact Hc']. }
      split.
      { intros He. destruct (Hclosed He) as (t' & Hin & Hc').
        exists t'. split; [right; exact Hin|exact Hc']. }
      intros He. f_equal. apply Hrun. exact He.
    + (* the redraw raised: the window was closed *)
      exists [value].
      cbn [System.shown System.final System.ended System.detector
           System.simulator System.visualizer length].
      split; [lia|]. split; [exact Hgen1|]. split; [symmetry; exact Hshown1|].
      split; [reflexivity|]. split.
      { cbn [system_after System.simulator]. rewrite length_app. cbn [length].
        f_equal. lia. }
      split; [reflexivity|]. split; [discriminate|]. split.
      { intros _. exists t. split; [left; reflexivity|].
        destruct Hd as [Hd _]. symmetry. exact Hd. }
      discriminate.
    + (* a setter raised *)
      exists [value].
      cbn [System.shown System.final System.ended System.detector
           System.simulator System.visualizer length].
      split; [lia|]. split; [exact Hgen1|]. split; [symmetry; exact Hshown1|].
      split; [reflexivity|]. split.
      { cbn [system_after System.simulator]. rewrite length_app. cbn [length].
        f_equal. lia. }
      split; [reflexivity|]. split.
      { intros e' He'. inversion He'; subst e'.
        destruct Hd as (c' & _ & Hc' & Hn1 & Hn2).
        exists t, c'. split; [left; reflexivity|]. auto. }
      split; discriminate.
Qed.

End SystemLoop.

Lemma system_init_ok : System.init = Ok (system_after [] []).
Proof. reflexivity. Qed.

Lemma samples_from_nth (k : Z) (vs : list float) (bs : list bool) :
  length bs = length vs ->
  forall (i : nat) (e : sample),
    nth_error (samples_from k vs bs) i = Some e ->
    sample_time e = (k + 1 + Z.of_nat i)%Z /\
    nth_error vs i = Some (sample_value e) /\
    nth_error bs i = Some (sample_flag e).
Proof.
  revert k bs. induction vs as [|v vs IH]; intros k bs Hl i e H.
  - destruct i; discriminate H.
  - destruct bs as [|b bs]; [discriminate Hl|].
    rewrite samples_from_cons in H. destruct i as [|i].
    + cbn in H. inversion H; subst e. cbn. repeat split. lia.
    + cbn [nth_error] in *. simpl in Hl.
      destruct (IH (k + 1)%Z bs ltac:(lia) i e H) as (Ht & Hv & Hb).
      repeat split; try assumption. lia.
Qed.

Lemma samples_from_length (k : Z) (vs : list float) (bs : list bool) :
  length bs = length vs -> length (samples_from k vs bs) = length vs.
Proof.
  intros H. unfold samples_from, sample.
  rewrite !length_combine, length_map, length_seq, H. lia.
Qed.

(** X9.  The loop of [run] shows the classified stream: the values given
    to [update] are those the simulator generates from the draws of the
    turns taken, each with the answer the detector gives when fed these
    values from the start, and with the counter after its generation as
    timestamp, so that sample [i] (from 0) carries the timestamp [i + 1].
    The components end where the stream left them. *)
Theorem system_shows_the_classified_stream :
  forall (np_sin : float -> float) (s0 : System.AnomalyDetectionSystem)
         (turns : list System.turn),
    System.init = Ok s0 ->
    (Z.of_nat (length turns) <= 2 ^ 53)%Z ->
    let o := System.run np_sin s0 turns in
    exists vs bs log,
      generate np_sin (System.simulator s0)
        (map System.turn_draws (firstn (length (System.shown o)) turns))
        = Ok (vs, System.simulator (System.final o)) /\
      Detector.run 50 2.5 vs = Ok (bs, System.detector (System.final o), log)
      /\
      System.visualizer (System.final o)
        = stored (System.visualizer s0) (System.shown o) /\
      length (System.shown o) = length vs /\
      forall (i : nat) (e : sample),
        nth_error (System.shown o) i = Some e ->
        sample_time e = (Z.of_nat i + 1)%Z /\
        nth_error vs i = Some (sample_value e) /\
        nth_error bs i = Some (sample_flag e).
Proof.
  intros np_sin s0 turns Hinit Hlen. cbv zeta.
  rewrite system_init_ok in Hinit. inversion Hinit; subst s0.
  destruct (@run_from np_sin turns [] []) as
    (vs & Hn & Hgen & Hshown & Hdet & Hsim & Hviz & _); [simpl; lia|].
  cbn [app] in *.
  assert (Hl : length (System.shown
                         (System.run np_sin (system_after [] []) turns))
               = length vs).
  { rewrite Hshown. apply samples_from_length. apply spec_answers_length. }
  exists vs, (spec_answers 50 2.5 [] vs), (spec_windows 50 [] vs).
  split; [rewrite Hl, Hsim; exact Hgen|].
  split; [rewrite Hdet; apply run_ok; vm_compute; split; discriminate|].
  split.
  { rewrite Hviz. cbn [system_after System.visualizer].
    rewrite stored_viz_after by lia. reflexivity. }
  split; [exact Hl|].
  intros i e He. rewrite Hshown in He.
  destruct (@samples_from_nth 0 vs (spec_answers 50 2.5 [] vs)
              (spec_answers_length _ _ _ _) i e He) as (Ht & Hv & Hb).
  repeat split; try assumption. lia.
Qed.

(** X10.  Only the plotting library ends the loop of [run] abnormally.
    With the parameters of the system, neither [get_next_value] nor
    [is_anomaly] ever raises: when the loop ends on an exception, a
    setter of the plotting library raised it in one of the turns; and
    when it ends because [update] returned [False], the redraw of one of
    the turns raised. *)
Theorem system_fails_only_on_plotting_errors :
  forall (np_sin : float -> float) (s0 : System.AnomalyDetectionSystem)
         (turns : list System.turn),
    System.init = Ok s0 ->
    (Z.of_nat (length turns) <= 2 ^ 53)%Z ->
    (forall e : exn,
       System.ended (System.run np_sin s0 turns) = System.Failed e ->
       exists t c,
         In t turns /\ System.turn_backend t c = Some e /\
         c <> Visualizer.canvas_draw /\
         c <> Visualizer.canvas_flush_events) /\
    (System.ended (System.run np_sin s0 turns) = System.WindowClosed ->
     exists t, In t turns /\ redraws (System.turn_backend t) = false).
Proof.
  intros np_sin s0 turns Hinit Hlen.
  rewrite system_init_ok in Hinit. inversion Hinit; subst s0.
  destruct (@run_from np_sin turns [] []) as
    (vs & _ & _ & _ & _ & _ & _ & Hfail & Hclosed & _); [simpl; lia|].
  split; assumption.
Qed.

(** X11.  The system never flags any of its first 25 samples, whatever
    the random generator hands out, injected anomalies included: the
    detector of the system has [window_size = 50]. *)
Theorem system_never_flags_the_first_25 :
  forall (np_sin : float -> float) (s0 : System.AnomalyDetectionSystem)
         (turns : list System.turn) (i : nat) (e : sample),
    System.init = Ok s0 ->
    (Z.of_nat (length turns) <= 2 ^ 53)%Z ->
    nth_error (System.shown (System.run np_sin s0 turns)) i = Some e ->
    (i < 25)%nat ->
    sample_flag e = false.
Proof.
  intros np_sin s0 turns i e Hinit Hlen He Hi.
  rewrite system_init_ok in Hinit. inversion Hinit; subst s0.
  destruct (@run_from np_sin turns [] []) as
    (vs & _ & _ & Hshown & _); [simpl; lia|].
  rewrite Hshown in He.
  destruct (@samples_from_nth 0 vs (spec_answers 50 2.5 [] vs)
              (spec_answers_length _ _ _ _) i e He) as (_ & Hv & Hb).
  assert (Hiv : (i < length vs)%nat).
  { apply nth_error_Some. rewrite Hv. discriminate. }
  pose proof (@spec_answers_nth 50 2.5 vs [] i Hiv) as Hn.
  cbn [length Nat.add] in Hn.
  assert (Hw : (Z.of_nat i <? warmup 50)%Z = true).
  { apply Z.ltb_lt. change (warmup 50) with 25%Z. lia. }
  rewrite Hw in Hn.
  apply nth_error_nth with (d := false) in Hb. congruence.
Qed.

Lemma system_shows_the_classified_stream_witness :
  exists vs : list float,
    length (System.shown
              (System.run sin_series (system_after [] [])
                 [System.mkTurn false (mkDraws 0.25 0.5 true 0.5)
                    (fun _ => None);
                  System.mkTurn false (mkDraws 0.5 0.75 false 0.25)
                    (fun _ => None)])) = length vs.
Proof.
  destruct (@system_shows_the_classified_stream sin_series
              (system_after [] [])
              [System.mkTurn false (mkDraws 0.25 0.5 true 0.5)
                 (fun _ => None);
               System.mkTurn false (mkDraws 0.5 0.75 false 0.25)
                 (fun _ => None)])
    as (vs & bs & log & _ & _ & _ & Hl & _).
  - reflexivity.
  - vm_compute. discriminate.
  - exists vs. exact Hl.
Defined.

Lemma system_fails_only_on_plotting_errors_witness :
  exists (t : System.turn) (c : Visualizer.call),
    System.turn_backend t c = Some ValueError /\
    c <> Visualizer.canvas_draw.
Proof.
  destruct (@system_fails_only_on_plotting_errors sin_series
              (system_after [] [])
              [System.mkTurn false (mkDraws 0.25 0.5 true 0.5)
                 (fun c => match c with
                           | Visualizer.ax_set_ylim _ _ => Some ValueError
                           | _ => None
                           end)])
    as [H _].
  - reflexivity.
  - vm_compute. discriminate.
  - destruct (H ValueError) as (t & c & _ & Hc & Hd & _).
    + vm_compute. reflexivity.
    + exists t, c. split; assumption.
Defined.

Lemma system_never_flags_the_first_25_witness :
  exists e : sample,
    nth_error
      (System.shown
         (System.run sin_series (system_after [] [])
            [System.mkTurn false (mkDraws 0.25 0.0078125 true 0.5)
               (fun _ => None)])) 0 = Some e /\
    sample_flag e = false.
Proof.
  eexists. split.
  - vm_compute. reflexivity.
  - eapply (@system_never_flags_the_first_25 sin_series
              (system_after [] [])
              [System.mkTurn false (mkDraws 0.25 0.0078125 true 0.5)
                 (fun _ => None)] 0%nat).
    + reflexivity.
    + vm_compute. discriminate.
    + vm_compute. reflexivity.
    + lia.
Defined.

Lemma map_fst_combine {A B : Type} (l1 : list A) (l2 : list B) :
  length l1 = length l2 -> map fst (combine l1 l2) = l1.
Proof.
  revert l2. induction l1 as [|a l1 IH]; intros [|b l2] H;
    try reflexivity; try discriminate H.
  cbn. f_equal. apply IH. simpl in H. lia.
Qed.

Lemma samples_from_times (k : Z) (vs : list float) (bs : list bool) :
  length bs = length vs ->
  map sample_time (samples_from k vs bs) =
  map (fun i => (k + 1 + Z.of_nat i)%Z) (seq 0 (length vs)).
Proof.
  intros H. unfold samples_from, sample_time, sample.
  rewrite <- (map_map fst fst).
  rewrite !map_fst_combine; try reflexivity.
  - now rewrite length_map, length_seq.
  - rewrite length_combine, length_map, length_seq, H. lia.
Qed.

(** X12.  In the loop of [run] the line never leaves the x-axis: the
    timestamps are the consecutive counters [1, 2, ...], so after [j]
    samples the timestamps the line holds lie above
    [max(0, j - max_points)], the left x-limit that the last [update]
    set, and reach [j], five below its right x-limit [j + 5]. *)
Theorem line_stays_inside_the_x_limits :
  forall (np_sin : float -> float) (s0 : System.AnomalyDetectionSystem)
         (turns : list System.turn) (t' : Z),
    System.init = Ok s0 ->
    (Z.of_nat (length turns) <= 2 ^ 53)%Z ->
    let o := System.run np_sin s0 turns in
    let j := Z.of_nat (length (System.shown o)) in
    let v := System.visualizer (System.final o) in
    In t' (Collections.items (Visualizer.timestamps v)) ->
    (Z.max 0 (j - Visualizer.max_points v) < t' <= j)%Z /\
    (t' < j + 5)%Z /\
    Visualizer.max_points v = 200%Z.
Proof.
  intros np_sin s0 turns t' Hinit Hlen. cbv zeta.
  rewrite system_init_ok in Hinit. inversion Hinit; subst s0.
  destruct (@run_from np_sin turns [] []) as
    (vs & _ & _ & Hshown & _ & _ & Hviz & _); [simpl; lia|].
  cbn [app] in Hviz. rewrite Hviz, Hshown.
  assert (Hbs : length (spec_answers 50 2.5 [] vs) = length vs)
    by apply spec_answers_length.
  cbn [length Z.of_nat] in *.
  pose proof (@samples_from_length 0 vs _ Hbs) as Hl.
  unfold sample in Hl. rewrite Hl. clear Hl.
  unfold viz_after.
  cbn [Visualizer.timestamps Visualizer.max_points Collections.items].
  rewrite (@samples_from_times 0 vs _ Hbs).
  unfold lastn. rewrite length_map, length_seq, skipn_map, skipn_seq.
  intros Hin. apply in_map_iff in Hin. destruct Hin as (i & <- & Hi).
  apply in_seq in Hi. lia.
Qed.

Lemma line_stays_inside_the_x_limits_witness :
  (Z.max 0 (1 - 200) < 1 <= 1)%Z /\ (1 < 1 + 5)%Z.
Proof.
  pose proof (@line_stays_inside_the_x_limits sin_series
                (system_after [] [])
                [System.mkTurn false (mkDraws 0.25 0.5 true 0.5)
                   (fun _ => None)] 1%Z eq_refl) as H.
  cbv zeta in H.
  destruct H as (H1 & H2 & _).
  - vm_compute. discriminate.
  - vm_compute. left. reflexivity.
  - split; [exact H1|exact H2].
Defined.

(* ================================================================== *)
(** * The y-limits of non-finite extremes                              *)
(* ================================================================== *)

Section NonFiniteArithmetic.

Local Open Scope float_scope.

(** Deciding an operation on a NaN or an infinity and any float. *)
Ltac settle x y Hx :=
  destruct (not_finite_cases Hx) as [-> | [-> | ->]];
  unfold not_finite;
  destruct (Prim2SF y) as [[|]|[|]| |[|] m e] eqn:Hy;
  match goal with
  | |- is_finite ?r = false =>
      let E := fresh "E" in
      first
        [ assert (E : r = nan)
            by (apply Prim2SF_inj;
                rewrite ?add_spec, ?sub_spec, ?mul_spec, ?div_spec, Hy;
                reflexivity)
        | assert (E : r = infinity)
            by (apply Prim2SF_inj;
                rewrite ?add_spec, ?sub_spec, ?mul_spec, ?div_spec, Hy;
                reflexivity)
        | assert (E : r = neg_infinity)
            by (apply Prim2SF_inj;
                rewrite ?add_spec, ?sub_spec, ?mul_spec, ?div_spec, Hy;
                reflexivity) ];
      rewrite E; reflexivity
  end.

Lemma not_finite_add_l (x y : float) : not_finite x -> not_finite (x + y).
Proof. intros Hx. settle x y Hx. Qed.

Lemma not_finite_add_r (x y : float) : not_finite x -> not_finite (y + x).
Proof. intros Hx. settle x y Hx. Qed.

Lemma not_finite_sub_l (x y : float) : not_finite x -> not_finite (x - y).
Proof. intros Hx. settle x y Hx. Qed.

Lemma not_finite_sub_r (x y : float) : not_finite x -> not_finite (y - x).
Proof. intros Hx. settle x y Hx. Qed.

Lemma not_finite_div_l (x y : float) : not_finite x -> not_finite (x / y).
Proof. intros Hx. settle x y Hx. Qed.

Lemma not_finite_mul_tenth (x : float) :
  not_finite x -> not_finite (0x1.999999999999ap-4 * x).
Proof.
  intros Hx. destruct (not_finite_cases Hx) as [-> | [-> | ->]];
    reflexivity.
Qed.

End NonFiniteArithmetic.

(** X13.  [_calculate_y_limits] does not repair extremes that are not
    finite: when [y_min] or [y_max] is a NaN or an infinity, neither of
    the two limits it returns is finite, in the branch that widens a
    small range as in the other. *)
Theorem y_limits_of_non_finite_extremes :
  forall y_min y_max : float,
    is_finite y_min = false \/ is_finite y_max = false ->
    is_finite (fst (Visualizer._calculate_y_limits y_min y_max)) = false /\
    is_finite (snd (Visualizer._calculate_y_limits y_min y_max)) = false.
Proof.
  intros y_min y_max H.
  assert (Hrange : not_finite (y_max - y_min)).
  { destruct H as [H|H];
      [apply not_finite_sub_r|apply not_finite_sub_l]; exact H. }
  unfold Visualizer._calculate_y_limits.
  destruct (y_max - y_min <? Visualizer.MIN_Y_RANGE); cbn [fst snd].
  - assert (Hc : not_finite ((y_max + y_min) / 2)).
    { apply not_finite_div_l. destruct H as [H|H];
        [apply not_finite_add_r|apply not_finite_add_l]; exact H. }
    split.
    + apply not_finite_sub_l, not_finite_sub_l. exact Hc.
    + apply not_finite_add_l, not_finite_add_l. exact Hc.
  - pose proof (not_finite_mul_tenth Hrange) as Hp.
    split; [apply not_finite_sub_r|apply not_finite_add_r]; exact Hp.
Qed.

Lemma y_limits_of_non_finite_extremes_witness :
  is_finite (fst (Visualizer._calculate_y_limits 1 infinity)) = false /\
  is_finite (snd (Visualizer._calculate_y_limits 1 infinity)) = false.
Proof.
  apply (@y_limits_of_non_finite_extremes 1 infinity).
  right. reflexivity.
Defined.
